(** * Invoice server actions ([app/lib/actions.ts])

    A shallow embedding of the three server actions [createInvoice],
    [updateInvoice] and [deleteInvoice], of the zod schema they validate
    form data with, and of the collaborators they call: the JavaScript
    built-ins [Number], [Date.prototype.toISOString] and
    [String.prototype.split], the [postgres] client, and Next.js'
    [revalidatePath] and [redirect].

    JavaScript strings are sequences of code units; the model keeps the
    code units U+0000..U+00FF, one [ascii] each.  JavaScript numbers are
    IEEE 754 binary64 values: the kernel's primitive [float].

    The store is a table of rows that hold the values the statements
    bound; whether it raises on a statement (connectivity, constraints,
    the types of its columns) is an input of each request.

    The sources hold two revisions of the file.  The development follows
    the later one, with its three actions; the earlier [createInvoice],
    whose insert stands outside any [try], is kept in [Earlier]. *)

From Stdlib Require Import ZArith NArith List String Ascii Bool Lia Floats.
Import ListNotations.

Local Open Scope string_scope.
Local Open Scope Z_scope.

(* ================================================================== *)
(** * JavaScript built-ins *)

Module JS.

(** ** Code units and decimal digits *)

Definition code (c : ascii) : N := N_of_ascii c.

Definition is_digit (c : ascii) : bool :=
  ((48 <=? code c) && (code c <=? 57))%N.

Definition digit_value (c : ascii) : N := (code c - 48)%N.

(** Value of a digit of a hexadecimal, octal or binary literal, when [c]
    is a digit of radix [radix]. *)
Definition radix_digit (radix : N) (c : ascii) : option N :=
  let n := code c in
  let v :=
    if ((48 <=? n) && (n <=? 57))%N then Some (n - 48)%N
    else if ((97 <=? n) && (n <=? 102))%N then Some (n - 87)%N
    else if ((65 <=? n) && (n <=? 70))%N then Some (n - 55)%N
    else None in
  match v with
  | Some d => if (d <? radix)%N then Some d else None
  | None => None
  end.

(** [StrWhiteSpaceChar]: the white space and line terminator code units
    below U+0100 (TAB, LF, VT, FF, CR, SP, NBSP). *)
Definition is_white_space (c : ascii) : bool :=
  let n := code c in
  ((9 <=? n) && (n <=? 13) || (n =? 32) || (n =? 160))%N.

Fixpoint trim_start (s : string) : string :=
  match s with
  | String c s' => if is_white_space c then trim_start s' else s
  | EmptyString => EmptyString
  end.

(** [trim_end] drops the trailing white space: a character is kept when
    something other than white space follows it or it is not white space. *)
Fixpoint trim_end (s : string) : string :=
  match s with
  | EmptyString => EmptyString
  | String c s' =>
      match trim_end s' with
      | EmptyString => if is_white_space c then EmptyString else String c EmptyString
      | t => String c t
      end
  end.

Definition trim (s : string) : string := trim_end (trim_start s).

(** ** Numbers *)

Definition number := float.

(** The binary64 value nearest to [num / den] (ties to even), with the
    sign [neg].  [SFdiv] divides the two integers exactly and rounds
    once. *)
Definition round_ratio (neg : bool) (num den : positive) : number :=
  SF2Prim (SFdiv prec emax (S754_finite neg num 0) (S754_finite false den 0)).

(** The Number value of the mathematical value [m * 10^e10], signed by
    [neg] (the specification's [RoundMVResult]).  Beyond 10^400 every
    non-zero value rounds to an infinity, and below 10^-400 to a zero, so
    the powers of ten are only computed in between ([m] is below
    [2 ^ N.size m], hence below [10 ^ N.size m]). *)
Definition of_decimal (neg : bool) (m : N) (e10 : Z) : number :=
  match m with
  | N0 => if neg then neg_zero else zero
  | Npos p =>
      if 400 <? e10 then (if neg then neg_infinity else infinity)
      else if e10 + Z.of_N (N.size m) <? -400 then (if neg then neg_zero else zero)
      else if 0 <=? e10 then round_ratio neg (p * Z.to_pos (10 ^ e10)) 1
      else round_ratio neg p (Z.to_pos (10 ^ (- e10)))
  end.

(** The longest prefix of decimal digits of [s], as the number it
    denotes and the count of digits read, with the rest of [s]. *)
Fixpoint read_digits (acc : N) (count : Z) (s : string) : N * Z * string :=
  match s with
  | String c s' =>
      if is_digit c then read_digits (10 * acc + digit_value c)%N (count + 1) s'
      else (acc, count, s)
  | EmptyString => (acc, count, s)
  end.

(** [ExponentPart], or nothing, up to the end of the string. *)
Definition read_exponent (s : string) : option Z :=
  match s with
  | EmptyString => Some 0
  | String c s1 =>
      if (code c =? 101)%N || (code c =? 69)%N then
        let '(neg, s2) :=
          match s1 with
          | String "+" r => (false, r)
          | String "-" r => (true, r)
          | _ => (false, s1)
          end in
        match read_digits 0 0 s2 with
        | (e, count, EmptyString) =>
            if 0 <? count then Some (if neg then - Z.of_N e else Z.of_N e) else None
        | _ => None
        end
      else None
  end.

(** [StrUnsignedDecimalLiteral]: [Infinity], [digits . digits? exp?],
    [. digits exp?] or [digits exp?]. *)
Definition unsigned_decimal (neg : bool) (s : string) : option number :=
  if String.eqb s "Infinity" then Some (if neg then neg_infinity else infinity)
  else
    let '(ip, ni, r1) := read_digits 0 0 s in
    match r1 with
    | String "." r2 =>
        let '(m, nf, r3) := read_digits ip 0 r2 in
        if (0 <? ni) || (0 <? nf) then
          match read_exponent r3 with
          | Some e => Some (of_decimal neg m (e - nf))
          | None => None
          end
        else None
    | _ =>
        if 0 <? ni then
          match read_exponent r1 with
          | Some e => Some (of_decimal neg ip e)
          | None => None
          end
        else None
    end.

(** The digits of a [NonDecimalIntegerLiteral], all of the string. *)
Fixpoint read_radix (radix : N) (acc : N) (s : string) : option N :=
  match s with
  | EmptyString => Some acc
  | String c s' =>
      match radix_digit radix c with
      | Some d => read_radix radix (radix * acc + d)%N s'
      | None => None
      end
  end.

Definition non_decimal (radix : N) (digits : string) : option number :=
  match digits with
  | EmptyString => None
  | _ =>
      match read_radix radix 0 digits with
      | Some n => Some (of_decimal false n 0)
      | None => None
      end
  end.

(** [StringToNumber]: [Number(s)] for a string [s]. *)
Definition StringToNumber (s : string) : number :=
  let t := trim s in
  let parsed :=
    match t with
    | EmptyString => Some zero
    | String "0" (String "x" r) | String "0" (String "X" r) => non_decimal 16 r
    | String "0" (String "o" r) | String "0" (String "O" r) => non_decimal 8 r
    | String "0" (String "b" r) | String "0" (String "B" r) => non_decimal 2 r
    | String "+" r => unsigned_decimal false r
    | String "-" r => unsigned_decimal true r
    | _ => unsigned_decimal false t
    end in
  match parsed with
  | Some n => n
  | None => nan
  end.

(** ** Values

    The values the actions handle: what [FormData.get] returns (a string,
    a [File] or [null]), what the schema produces and what is bound into
    a statement. *)

Inductive value :=
| Undefined
| Null
| Str (s : string)
| Num (n : number)
| FileObject (name : string).

(** [Number(v)]: [ToNumber] on the primitives; a [File] object converts
    through its string ["[object File]"], which is no numeric literal. *)
Definition ToNumber (v : value) : number :=
  match v with
  | Undefined => nan
  | Null => zero
  | Str s => StringToNumber s
  | Num n => n
  | FileObject _ => nan
  end.

(** The operator [*]. *)
Definition mul (a b : value) : value := Num (ToNumber a * ToNumber b)%float.

(** ** Objects: property lists *)

Definition object := list (string * value).

Fixpoint prop (key : string) (o : object) : value :=
  match o with
  | [] => Undefined
  | (k, v) :: o' => if String.eqb k key then v else prop key o'
  end.

(** ** Strings *)

Fixpoint starts_with (p s : string) : bool :=
  match p, s with
  | EmptyString, _ => true
  | String a p', String b s' => Ascii.eqb a b && starts_with p' s'
  | String _ _, EmptyString => false
  end.

(** The pieces of [s] between the occurrences of a non-empty separator:
    the piece being read and the pieces after it.  [skip] counts the code
    units of a matched separator still to pass over. *)
Fixpoint split_pieces (sep : string) (skip : nat) (s : string) : string * list string :=
  match s with
  | EmptyString => (EmptyString, [])
  | String c s' =>
      match skip with
      | S k => split_pieces sep k s'
      | O =>
          if starts_with sep s then
            let '(p, ps) := split_pieces sep (String.length sep - 1) s' in
            (EmptyString, p :: ps)
          else
            let '(p, ps) := split_pieces sep 0 s' in
            (String c p, ps)
      end
  end.

(** [s.split(sep)]; an empty separator splits between the code units. *)
Definition split (sep s : string) : list string :=
  match sep with
  | EmptyString => map (fun c => String c EmptyString) (list_ascii_of_string s)
  | _ => let '(p, ps) := split_pieces sep 0 s in p :: ps
  end.

(** [a[i]] on an array of strings. *)
Definition item (i : nat) (a : list string) : value :=
  match nth_error a i with
  | Some s => Str s
  | None => Undefined
  end.

Definition digit_char (d : N) : ascii := ascii_of_N (48 + d).

Fixpoint decimal_from (fuel : nat) (n : N) (acc : string) : string :=
  match fuel with
  | O => acc
  | S fuel' =>
      let acc' := String (digit_char (n mod 10)) acc in
      if (n <? 10)%N then acc' else decimal_from fuel' (n / 10) acc'
  end.

(** The decimal digits of [n]; a number has at most [log2 n + 1] of them. *)
Definition decimal_string (n : N) : string :=
  decimal_from (S (N.to_nat (N.log2 n))) n EmptyString.

Fixpoint zeros (n : nat) : string :=
  match n with
  | O => EmptyString
  | S n' => String "0" (zeros n')
  end.

(** [s.padStart(width, "0")]. *)
Definition pad_start (width : nat) (s : string) : string :=
  zeros (width - String.length s) ++ s.

(** ** Dates: time values are milliseconds since the epoch, UTC *)

Definition msPerDay : Z := 86400000.
Definition msPerHour : Z := 3600000.
Definition msPerMinute : Z := 60000.
Definition msPerSecond : Z := 1000.

Definition Day (t : Z) : Z := t / msPerDay.

Definition DaysInYear (y : Z) : Z :=
  if negb (y mod 4 =? 0) then 365
  else if negb (y mod 100 =? 0) then 366
  else if negb (y mod 400 =? 0) then 365
  else 366.

Definition DayFromYear (y : Z) : Z :=
  365 * (y - 1970) + (y - 1969) / 4 - (y - 1901) / 100 + (y - 1601) / 400.

(** The largest [y] with [DayFromYear y <= d]: a year has 365.2425 days
    on average, which places [y] within one of the estimate. *)
Definition year_of_day (d : Z) : Z :=
  let y := 1970 + (400 * d) / 146097 in
  if DayFromYear (y + 1) <=? d then y + 1
  else if DayFromYear y <=? d then y
  else y - 1.

Definition YearFromTime (t : Z) : Z := year_of_day (Day t).

Definition InLeapYear (t : Z) : Z :=
  if DaysInYear (YearFromTime t) =? 366 then 1 else 0.

Definition DayWithinYear (t : Z) : Z := Day t - DayFromYear (YearFromTime t).

(** Month 0 is January. *)
Definition MonthFromTime (t : Z) : Z :=
  let d := DayWithinYear t in
  let leap := InLeapYear t in
  if d <? 31 then 0
  else if d <? 59 + leap then 1
  else if d <? 90 + leap then 2
  else if d <? 120 + leap then 3
  else if d <? 151 + leap then 4
  else if d <? 181 + leap then 5
  else if d <? 212 + leap then 6
  else if d <? 243 + leap then 7
  else if d <? 273 + leap then 8
  else if d <? 304 + leap then 9
  else if d <? 334 + leap then 10
  else 11.

Definition DateFromTime (t : Z) : Z :=
  let d := DayWithinYear t in
  let leap := InLeapYear t in
  match MonthFromTime t with
  | 0 => d + 1
  | 1 => d - 30
  | 2 => d - 58 - leap
  | 3 => d - 89 - leap
  | 4 => d - 119 - leap
  | 5 => d - 150 - leap
  | 6 => d - 180 - leap
  | 7 => d - 211 - leap
  | 8 => d - 242 - leap
  | 9 => d - 272 - leap
  | 10 => d - 303 - leap
  | _ => d - 333 - leap
  end.

Definition HourFromTime (t : Z) : Z := (t / msPerHour) mod 24.
Definition MinFromTime (t : Z) : Z := (t / msPerMinute) mod 60.
Definition SecFromTime (t : Z) : Z := (t / msPerSecond) mod 60.
Definition msFromTime (t : Z) : Z := t mod msPerSecond.

Definition padded (width : nat) (n : Z) : string :=
  pad_start width (decimal_string (Z.to_N n)).

(** The year of an ISO timestamp: four digits from 0 to 9999, otherwise a
    sign and six digits. *)
Definition iso_year (y : Z) : string :=
  if (0 <=? y) && (y <=? 9999) then padded 4 y
  else (if y <? 0 then "-" else "+") ++ padded 6 (Z.abs y).

(** [Date.prototype.toISOString] of the date whose time value is [t]:
    [YYYY-MM-DDTHH:mm:ss.sssZ]. *)
Definition toISOString (t : Z) : string :=
  iso_year (YearFromTime t) ++ "-" ++ padded 2 (MonthFromTime t + 1) ++ "-"
    ++ padded 2 (DateFromTime t) ++ "T"
    ++ padded 2 (HourFromTime t) ++ ":" ++ padded 2 (MinFromTime t) ++ ":"
    ++ padded 2 (SecFromTime t) ++ "." ++ padded 3 (msFromTime t) ++ "Z".

End JS.

(* ================================================================== *)
(** * zod: schemas and parsing *)

Module Zod.
Import JS.

(** The installed zod release is not part of the sources, and the
    releases differ on one point the schema below meets: [z.number()]
    takes the infinities in zod 3 and refuses them in zod 4.  The
    development holds for either. *)
Class release := { number_accepts_infinity : bool }.

Definition zod3 : release := {| number_accepts_infinity := true |}.
Definition zod4 : release := {| number_accepts_infinity := false |}.

Inductive schema :=
| z_string
| z_coerce_number
| z_enum (options : list string).

(** [z.object({...})]: the keys in declaration order. *)
Definition z_object := list (string * schema).

(** [shape.omit({k: true, ...})]. *)
Definition omit (mask : list string) (shape : z_object) : z_object :=
  filter (fun field => negb (existsb (String.eqb (fst field)) mask)) shape.

(** An issue is reported at the key whose value was refused. *)
Definition issue := string.

(** One value against one schema: the parsed value, or nothing.
    [z.coerce.number()] parses [Number(v)] and refuses [NaN]. *)
Definition check {R : release} (s : schema) (v : value) : option value :=
  match s with
  | z_string =>
      match v with
      | Str _ => Some v
      | _ => None
      end
  | z_coerce_number =>
      let n := ToNumber v in
      if is_nan n then None
      else if is_infinity n && negb number_accepts_infinity then None
      else Some (Num n)
  | z_enum options =>
      match v with
      | Str s => if existsb (String.eqb s) options then Some v else None
      | _ => None
      end
  end.

(** Every key of the shape is checked; the parsed object has exactly the
    keys of the shape, and the issues come in the same order. *)
Fixpoint parse_fields {R : release} (shape : z_object) (input : object)
  : object * list issue :=
  match shape with
  | [] => ([], [])
  | (key, s) :: shape' =>
      let '(parsed, issues) := parse_fields shape' input in
      match check s (prop key input) with
      | Some v => ((key, v) :: parsed, issues)
      | None => (parsed, key :: issues)
      end
  end.

Definition safeParse {R : release} (shape : z_object) (input : object)
  : object + list issue :=
  match parse_fields shape input with
  | (parsed, []) => inl parsed
  | (_, issues) => inr issues
  end.

End Zod.

(* ================================================================== *)
(** * postgres: statements and the [invoices] table *)

Module Postgres.
Import JS.

(** The three statements the actions send, with their bound parameters
    in the order of the placeholders. *)
Inductive statement :=
| INSERT (customer_id amount status date : value)
| UPDATE (customer_id amount status id : value)
| DELETE (id : value).

Definition parameters (q : statement) : list value :=
  match q with
  | INSERT c a s d => [c; a; s; d]
  | UPDATE c a s i => [c; a; s; i]
  | DELETE i => [i]
  end.

(** A row of [invoices]; a column holds the value that was bound. *)
Record invoice := {
  id : value;
  customer_id : value;
  amount : value;
  status : value;
  date : value
}.

Definition table := list invoice.

Definition value_eqb (a b : value) : bool :=
  match a, b with
  | Str x, Str y => String.eqb x y
  | _, _ => false
  end.

(** What a statement does to the table when the store accepts it;
    [fresh] is the identifier the store gives a new row. *)
Definition execute (fresh : string) (q : statement) (t : table) : table :=
  match q with
  | INSERT c a s d =>
      (t ++ [{| id := Str fresh; customer_id := c; amount := a; status := s; date := d |}])%list
  | UPDATE c a s i =>
      map (fun r =>
             if value_eqb (id r) i
             then {| id := id r; customer_id := c; amount := a; status := s; date := date r |}
             else r) t
  | DELETE i => filter (fun r => negb (value_eqb (id r) i)) t
  end.

End Postgres.

(* ================================================================== *)
(** * The world of a request: store, clock, log of calls *)

(** What may leave a handler instead of a return: a validation error, an
    error of the store client, or the signal [redirect] throws for the
    framework to catch (a control transfer, not a failure). *)
Inductive thrown :=
| ZodError (issues : list Zod.issue)
| PostgresError (message : string)
| NEXT_REDIRECT (url : string).

(** The calls a handler makes on its collaborators, as they happen. *)
Inductive call :=
| Query (q : Postgres.statement)
| ConsoleError (e : thrown)
| RevalidatePath (path : string).

Record world := {
  invoices : Postgres.table;
  (** whether the store raises on a statement (lost connection, violated
      constraint, ill-typed parameter), and with what message *)
  store_fault : Postgres.statement -> option string;
  (** the identifiers the store hands out, and how many it has *)
  new_id : nat -> string;
  inserted : nat;
  (** the clock: milliseconds since the epoch *)
  now : Z;
  (** the calls made so far, oldest first *)
  calls : list call
}.

Inductive completion (A : Type) :=
| Return (a : A)
| Throw (e : thrown).
Arguments Return {A} a.
Arguments Throw {A} e.

Definition action (A : Type) := world -> completion A * world.

Definition ret {A} (a : A) : action A := fun w => (Return a, w).

Definition bind {A B} (m : action A) (k : A -> action B) : action B :=
  fun w =>
    match m w with
    | (Return a, w') => k a w'
    | (Throw e, w') => (Throw e, w')
    end.

Definition throw {A} (e : thrown) : action A := fun w => (Throw e, w).

(** [try { body } catch (error) { handler }]. *)
Definition try_catch {A} (body : action A) (handler : thrown -> action A) : action A :=
  fun w =>
    match body w with
    | (Return a, w') => (Return a, w')
    | (Throw e, w') => handler e w'
    end.

Declare Scope action_scope.
Delimit Scope action_scope with action.
Notation "x <- m ;; k" := (bind m (fun x => k))
  (at level 100, m at next level, right associativity) : action_scope.
Notation "m ;; k" := (bind m (fun _ => k))
  (at level 100, right associativity) : action_scope.
Local Open Scope action_scope.

Definition record (c : call) (w : world) : world :=
  {| invoices := invoices w; store_fault := store_fault w; new_id := new_id w;
     inserted := inserted w; now := now w; calls := (calls w ++ [c])%list |}.

Definition is_undefined (v : JS.value) : bool :=
  match v with
  | JS.Undefined => true
  | _ => false
  end.

(** The world once the store has executed [q]. *)
Definition commit (q : Postgres.statement) (w : world) : world :=
  {| invoices := Postgres.execute (new_id w (inserted w)) q (invoices w);
     store_fault := store_fault w;
     new_id := new_id w;
     inserted :=
       match q with
       | Postgres.INSERT _ _ _ _ => S (inserted w)
       | _ => inserted w
       end;
     now := now w;
     calls := (calls w ++ [Query q])%list |}.

(** [await sql`...`]: the client refuses an undefined parameter; otherwise
    the statement goes to the store, which raises or executes it. *)
Definition sql (q : Postgres.statement) : action unit :=
  fun w =>
    if existsb is_undefined (Postgres.parameters q)
    then (Throw (PostgresError "UNDEFINED_VALUE"), record (Query q) w)
    else
      match store_fault w q with
      | Some message => (Throw (PostgresError message), record (Query q) w)
      | None => (Return tt, commit q w)
      end.

Definition console_error (e : thrown) : action unit :=
  fun w => (Return tt, record (ConsoleError e) w).

Definition revalidatePath (path : string) : action unit :=
  fun w => (Return tt, record (RevalidatePath path) w).

(** [redirect] never returns: it throws the signal the framework catches. *)
Definition redirect (url : string) : action unit := throw (NEXT_REDIRECT url).

(** [new Date()]: the date of the current time. *)
Definition new_Date : action Z := fun w => (Return (now w), w).

(** [schema.parse(input)]: the parsed object, or a thrown [ZodError]. *)
Definition parse {R : Zod.release} (shape : Zod.z_object) (input : JS.object) : action JS.object :=
  match Zod.safeParse shape input with
  | inl parsed => ret parsed
  | inr issues => throw (ZodError issues)
  end.

(* ================================================================== *)
(** * Form data *)

Inductive entry :=
| Text (s : string)
| Upload (filename : string).

Definition FormData := list (string * entry).

(** [formData.get(name)]: the first value under [name], or [null]. *)
Fixpoint get (formData : FormData) (name : string) : JS.value :=
  match formData with
  | [] => JS.Null
  | (k, e) :: rest =>
      if String.eqb k name then
        match e with
        | Text s => JS.Str s
        | Upload f => JS.FileObject f
        end
      else get rest name
  end.

(* ================================================================== *)
(** * actions.ts *)

Import JS Zod.

Definition FormSchema : z_object :=
  [ ("id", z_string);
    ("customerId", z_string);
    ("amount", z_coerce_number);
    ("status", z_enum ["pending"; "paid"]);
    ("date", z_string) ].

Definition CreateInvoice : z_object := omit ["id"; "date"] FormSchema.

Definition createInvoice {R : release} (formData : FormData) : action unit :=
  parsed <- parse CreateInvoice
              [ ("customerId", get formData "customerId");
                ("amount", get formData "amount");
                ("status", get formData "status") ] ;;
  let customerId := prop "customerId" parsed in
  let amount := prop "amount" parsed in
  let status := prop "status" parsed in
  let amountInCents := mul amount (Num 100%float) in
  today <- new_Date ;;
  let date := item 0 (split "T" (toISOString today)) in
  try_catch
    (sql (Postgres.INSERT customerId amountInCents status date))
    (fun error => console_error error) ;;
  revalidatePath "/dashboard/invoices" ;;
  redirect "/dashboard/invoices".

Definition UpdateInvoice : z_object := omit ["id"; "date"] FormSchema.

Definition updateInvoice {R : release} (id : string) (formData : FormData) : action unit :=
  parsed <- parse UpdateInvoice
              [ ("customerId", get formData "customerId");
                ("amount", get formData "amount");
                ("status", get formData "status") ] ;;
  let customerId := prop "customerId" parsed in
  let amount := prop "amount" parsed in
  let status := prop "status" parsed in
  let amountInCents := mul amount (Num 100%float) in
  try_catch
    (sql (Postgres.UPDATE customerId amountInCents status (Str id)))
    (fun error => console_error error) ;;
  revalidatePath "/dashboard/invoices" ;;
  redirect "/dashboard/invoices".

Definition deleteInvoice (id : string) : action unit :=
  sql (Postgres.DELETE (Str id)) ;;
  revalidatePath "/dashboard/invoices".

(** ** The earlier revision *)

Module Earlier.

Definition createInvoice {R : release} (formData : FormData) : action unit :=
  parsed <- parse CreateInvoice
              [ ("customerId", get formData "customerId");
                ("amount", get formData "amount");
                ("status", get formData "status") ] ;;
  let customerId := prop "customerId" parsed in
  let amount := prop "amount" parsed in
  let status := prop "status" parsed in
  let amountInCents := mul amount (Num 100%float) in
  today <- new_Date ;;
  let date := item 0 (split "T" (toISOString today)) in
  sql (Postgres.INSERT customerId amountInCents status date) ;;
  revalidatePath "/dashboard/invoices" ;;
  redirect "/dashboard/invoices".

End Earlier.

(* ================================================================== *)
(** * Vocabulary of the properties below *)

(** The object both actions hand to the schema. *)
Definition submitted (formData : FormData) : object :=
  [ ("customerId", get formData "customerId");
    ("amount", get formData "amount");
    ("status", get formData "status") ].

(** Validation passes: [parse] returns instead of throwing. *)
Definition passes {R : release} (formData : FormData) : bool :=
  match safeParse CreateInvoice (submitted formData) with
  | inl _ => true
  | inr _ => false
  end.

(** The store takes the statement without raising. *)
Definition accepts (w : world) (q : Postgres.statement) : Prop :=
  store_fault w q = None.

(** Running a handler: how it completes, and the world it leaves. *)
Definition outcome {A} (r : completion A * world) : completion A := fst r.
Definition after {A} (r : completion A * world) : world := snd r.

Definition listing : string := "/dashboard/invoices".

(** The date column of a new row, as [createInvoice] computes it from the
    clock. *)
Definition stamped (t : Z) : value := item 0 (split "T" (toISOString t)).

(** The amount both actions bind for a form: the product, as computed. *)
Definition cents (formData : FormData) : number :=
  (ToNumber (get formData "amount") * 100)%float.

(** The statements the actions send for a form that passes validation. *)
Definition insertion (formData : FormData) (t : Z) : Postgres.statement :=
  Postgres.INSERT (get formData "customerId") (Num (cents formData))
    (get formData "status") (stamped t).

Definition revision (id : string) (formData : FormData) : Postgres.statement :=
  Postgres.UPDATE (get formData "customerId") (Num (cents formData))
    (get formData "status") (Str id).

Definition removal (id : string) : Postgres.statement := Postgres.DELETE (Str id).

Definition statuses : list string := ["pending"; "paid"].

(** The issue a refused field adds. *)
Definition refused (key : string) (checked : option value) : list issue :=
  match checked with
  | Some _ => []
  | None => [key]
  end.

(** The issues validation reports for a form, in the order of the shape. *)
Definition issues_of {R : release} (formData : FormData) : list issue :=
  (refused "customerId" (check z_string (get formData "customerId")) ++
   refused "amount" (check z_coerce_number (get formData "amount")) ++
   refused "status" (check (z_enum statuses) (get formData "status")))%list.

(** Every code unit of [s] satisfies [f]. *)
Fixpoint every (f : ascii -> bool) (s : string) : bool :=
  match s with
  | EmptyString => true
  | String c s' => f c && every f s'
  end.

Definition not_T (c : ascii) : bool := negb (Ascii.eqb "T" c).

Definition date_char (c : ascii) : bool :=
  is_digit c || Ascii.eqb c "-" || Ascii.eqb c "+".

(** The date half of an ISO timestamp. *)
Definition date_half (t : Z) : string :=
  iso_year (YearFromTime t) ++ "-" ++ padded 2 (MonthFromTime t + 1) ++ "-"
    ++ padded 2 (DateFromTime t).

(** [P] holds of the [n] integers from [z] on. *)
Fixpoint all_from (P : Z -> bool) (z : Z) (n : nat) : bool :=
  match n with
  | O => true
  | S n' => P z && all_from P (z + 1) n'
  end.

(** ** The words of the specification *)

Module Spec.

(** The integer a finite number is, when it is one. *)
Definition whole (x : number) : option Z :=
  match Prim2SF x with
  | S754_zero _ => Some 0
  | S754_finite s m e =>
      let n := if s then Z.neg m else Z.pos m in
      if 0 <=? e then Some (n * 2 ^ e)
      else if n mod 2 ^ (- e) =? 0 then Some (n / 2 ^ (- e))
      else None
  | _ => None
  end.

(** [round]: the integer nearest to a finite number, halves upwards. *)
Definition round (x : number) : option Z :=
  match Prim2SF x with
  | S754_zero _ => Some 0
  | S754_finite s m e =>
      let n := if s then Z.neg m else Z.pos m in
      if 0 <=? e then Some (n * 2 ^ e)
      else Some ((2 * n + 2 ^ (- e)) / (2 * 2 ^ (- e)))
  | _ => None
  end.

(** The Gregorian calendar: leap years, and the days in month [m] (1 to
    12) of year [y]. *)
Definition leap_year (y : Z) : bool :=
  (y mod 4 =? 0) && (negb (y mod 100 =? 0) || (y mod 400 =? 0)).

Definition days_in_month (y m : Z) : Z :=
  match m with
  | 2 => if leap_year y then 29 else 28
  | 4 | 6 | 9 | 11 => 30
  | _ => 31
  end.

(** The number of days from 1970-01-01 to the civil date [y]-[m]-[d],
    counted by 400-year eras and by years that begin in March. *)
Definition days_from_civil (y m d : Z) : Z :=
  let y' := if m <=? 2 then y - 1 else y in
  let era := y' / 400 in
  let yoe := y' - era * 400 in
  let doy := (153 * (if 2 <? m then m - 3 else m + 9) + 2) / 5 + d - 1 in
  let doe := yoe * 365 + yoe / 4 - yoe / 100 + doy in
  era * 146097 + doe - 719468.

(** [y]-[m]-[d] is the UTC calendar date at time [t]. *)
Definition utc_date_at (t : Z) (y m d : Z) : Prop :=
  1 <= m <= 12 /\ 1 <= d <= days_in_month y m /\
  days_from_civil y m d * 86400000 <= t < (days_from_civil y m d + 1) * 86400000.

Definition digit (n : Z) : ascii := ascii_of_N (48 + Z.to_N (n mod 10)).

Definition four_digits (y : Z) : string :=
  String (digit (y / 1000)) (String (digit (y / 100))
    (String (digit (y / 10)) (String (digit y) EmptyString))).

Definition two_digits (n : Z) : string :=
  String (digit (n / 10)) (String (digit n) EmptyString).

(** The layout [YYYY-MM-DD]. *)
Definition YYYY_MM_DD (y m d : Z) : string :=
  four_digits y ++ "-" ++ two_digits m ++ "-" ++ two_digits d.

End Spec.

(** The persisted amount is the integer [round (a * 100)]. *)
Definition rounded_cents (a : number) (persisted : value) : Prop :=
  exists n x,
    Spec.round (a * 100)%float = Some n /\ persisted = Num x /\ Spec.whole x = Some n.

(** The statements among a list of calls, in order. *)
Fixpoint statements (l : list call) : list Postgres.statement :=
  match l with
  | [] => []
  | Query q :: l' => q :: statements l'
  | _ :: l' => statements l'
  end.

(** Amounts as a user types them: whole dollars, and dollars with a
    fraction of [q] quarters. *)
Definition dollars (n : Z) : string := decimal_string (Z.to_N n).

Definition dollars_and_quarters (n q : Z) : string :=
  dollars n ++ "." ++ padded 2 (25 * q).

(** The product of the amount [s] by 100 is the integer [c]. *)
Definition exact_cents (s : string) (c : Z) : bool :=
  match Spec.whole (StringToNumber s * 100)%float with
  | Some c' => c' =? c
  | None => false
  end.

(** Case analysis on the integer tests of a goal. *)
Ltac split_tests :=
  repeat match goal with
    | |- context [ ?a <=? ?b ] => destruct (Z.leb_spec a b)
    | |- context [ ?a <? ?b ] => destruct (Z.ltb_spec a b)
    | |- context [ ?a =? ?b ] => destruct (Z.eqb_spec a b)
    end.

(* ================================================================== *)
(** * Sample requests *)

Module Sample.

Definition form (customerId amount status : string) : FormData :=
  [ ("customerId", Text customerId); ("amount", Text amount); ("status", Text status) ].

(** One invoice in the table; the store is up; 2026-11-02T19:13:13.123Z. *)
Definition world0 : world :=
  {| invoices :=
       [ {| Postgres.id := Str "inv1"; Postgres.customer_id := Str "c9";
            Postgres.amount := Num 100%float; Postgres.status := Str "pending";
            Postgres.date := Str "2020-01-01" |} ];
     store_fault := fun _ => None;
     new_id := fun n => "inv" ++ decimal_string (N.of_nat n + 2);
     inserted := 0;
     now := 1793646793123;
     calls := [] |}.

(** The same world with the store unreachable. *)
Definition offline : world :=
  {| invoices := invoices world0;
     store_fault := fun _ => Some "CONNECT_TIMEOUT";
     new_id := new_id world0;
     inserted := inserted world0;
     now := now world0;
     calls := calls world0 |}.

End Sample.

(* ================================================================== *)
(** * The calendar of [toISOString] *)

Section Calendar.
Local Open Scope Z_scope.
Import JS.

(** [year_of_day d] is the year day [d] falls in. *)
Lemma year_of_day_spec d :
  DayFromYear (year_of_day d) <= d < DayFromYear (year_of_day d + 1).
Proof.
  unfold year_of_day, DayFromYear. cbv zeta. split_tests.
  all: Z.div_mod_to_equations; lia.
Qed.

Lemma DayFromYear_succ y : DayFromYear (y + 1) = DayFromYear y + DaysInYear y.
Proof.
  unfold DayFromYear, DaysInYear. split_tests; cbn [negb].
  all: Z.div_mod_to_equations; lia.
Qed.

Lemma DaysInYear_leap y :
  DaysInYear y = if Spec.leap_year y then 366 else 365.
Proof.
  unfold DaysInYear, Spec.leap_year. split_tests; reflexivity.
Qed.

Lemma DayWithinYear_range t :
  0 <= DayWithinYear t < DaysInYear (YearFromTime t).
Proof.
  unfold DayWithinYear, YearFromTime.
  pose proof (year_of_day_spec (Day t)) as H.
  rewrite DayFromYear_succ in H. lia.
Qed.

(** The month table of [MonthFromTime] and [DateFromTime], read as a civil
    date, is a date of the calendar and counts back to the same day. *)
Lemma civil_of_year_day y k :
  0 <= k < DaysInYear y ->
  forall m d,
    (let leap := if DaysInYear y =? 366 then 1 else 0 in
     (k < 31 /\ m = 1 /\ d = k + 1) \/
     (31 <= k < 59 + leap /\ m = 2 /\ d = k - 30) \/
     (59 + leap <= k < 90 + leap /\ m = 3 /\ d = k - 58 - leap) \/
     (90 + leap <= k < 120 + leap /\ m = 4 /\ d = k - 89 - leap) \/
     (120 + leap <= k < 151 + leap /\ m = 5 /\ d = k - 119 - leap) \/
     (151 + leap <= k < 181 + leap /\ m = 6 /\ d = k - 150 - leap) \/
     (181 + leap <= k < 212 + leap /\ m = 7 /\ d = k - 180 - leap) \/
     (212 + leap <= k < 243 + leap /\ m = 8 /\ d = k - 211 - leap) \/
     (243 + leap <= k < 273 + leap /\ m = 9 /\ d = k - 242 - leap) \/
     (273 + leap <= k < 304 + leap /\ m = 10 /\ d = k - 272 - leap) \/
     (304 + leap <= k < 334 + leap /\ m = 11 /\ d = k - 303 - leap) \/
     (334 + leap <= k /\ m = 12 /\ d = k - 333 - leap)) ->
    1 <= d <= Spec.days_in_month y m /\
    Spec.days_from_civil y m d = DayFromYear y + k.
Proof.
  rewrite DaysInYear_leap. cbv zeta.
  unfold Spec.days_from_civil, Spec.days_in_month, DayFromYear.
  destruct (Spec.leap_year y) eqn:L; cbn [Z.eqb Pos.eqb];
  intros Hk m d H; decompose [and or] H; clear H; subst m d;
  cbn [Z.leb Z.ltb Z.compare Pos.compare Pos.compare_cont];
  rewrite ?L; (split; [lia|]);
  unfold Spec.leap_year in L; revert L; split_tests; cbn [negb andb orb];
  intros L; try discriminate L; clear L.
  all: Z.div_mod_to_equations; lia.
Qed.

Lemma MonthFromTime_range t : 0 <= MonthFromTime t <= 11.
Proof. unfold MonthFromTime. cbv zeta. split_tests; lia. Qed.

(** The year, month and day [toISOString] writes are the UTC calendar date
    of the time value. *)
Lemma utc_date_of_time t :
  Spec.utc_date_at t (YearFromTime t) (MonthFromTime t + 1) (DateFromTime t).
Proof.
  pose proof (DayWithinYear_range t) as Hk.
  destruct (civil_of_year_day _ _ Hk (MonthFromTime t + 1) (DateFromTime t)) as [Hd Hc].
  { unfold DateFromTime, MonthFromTime, InLeapYear. cbv zeta.
    destruct (DaysInYear (YearFromTime t) =? 366);
      split_tests; cbn [Z.add Pos.add Pos.succ]; lia. }
  unfold Spec.utc_date_at. pose proof (MonthFromTime_range t).
  repeat split; try lia.
  all: rewrite Hc; unfold DayWithinYear, Day, msPerDay;
    Z.div_mod_to_equations; lia.
Qed.
End Calendar.

(* ================================================================== *)
(** * The date half of a timestamp *)

Section Strings.
Import JS.
Local Open Scope string_scope.

Lemma append_assoc (a b c : string) : (a ++ b) ++ c = a ++ (b ++ c).
Proof. induction a as [|x a IH]; cbn; [reflexivity | now rewrite IH]. Qed.

Lemma every_append f a b : every f (a ++ b) = every f a && every f b.
Proof.
  induction a as [|x a IH]; cbn; [reflexivity|].
  now rewrite IH, andb_assoc.
Qed.

Lemma every_weaken (f g : ascii -> bool) s :
  (forall c, f c = true -> g c = true) -> every f s = true -> every g s = true.
Proof.
  intros Hfg. induction s as [|c s IH]; cbn; [reflexivity|].
  intros [Hc Hs]%andb_prop. now rewrite (Hfg c Hc), IH.
Qed.

Lemma digit_char_is_digit d : (d < 10)%N -> is_digit (digit_char d) = true.
Proof.
  intros H.
  assert (d = 0 \/ d = 1 \/ d = 2 \/ d = 3 \/ d = 4 \/ d = 5 \/ d = 6 \/ d = 7
          \/ d = 8 \/ d = 9)%N as E by lia.
  decompose [or] E; subst d; reflexivity.
Qed.

Lemma every_zeros n : every is_digit (zeros n) = true.
Proof. induction n; cbn; [reflexivity | assumption]. Qed.

Lemma every_decimal_from fuel : forall n acc,
  every is_digit acc = true -> every is_digit (decimal_from fuel n acc) = true.
Proof.
  induction fuel as [|fuel IH]; intros n acc Hacc; cbn [decimal_from]; [assumption|].
  assert (every is_digit (String (digit_char (n mod 10)) acc) = true) as H.
  { cbn [every]. rewrite Hacc, digit_char_is_digit; [reflexivity|].
    apply N.mod_lt. discriminate. }
  destruct (n <? 10)%N; [assumption | now apply IH].
Qed.

Lemma every_padded width n : every is_digit (padded width n) = true.
Proof.
  unfold padded, pad_start, decimal_string.
  rewrite every_append, every_zeros. now apply every_decimal_from.
Qed.

Lemma digit_is_date_char c : is_digit c = true -> date_char c = true.
Proof. unfold date_char. now intros ->. Qed.

Lemma every_iso_year y : every date_char (iso_year y) = true.
Proof.
  unfold iso_year.
  destruct ((0 <=? y)%Z && (y <=? 9999)%Z).
  - apply (every_weaken is_digit); [exact digit_is_date_char | apply every_padded].
  - rewrite every_append.
    rewrite (every_weaken is_digit date_char (padded 6 _) digit_is_date_char
               (every_padded _ _)).
    now destruct (y <? 0)%Z.
Qed.

Lemma every_date_half t : every date_char (date_half t) = true.
Proof.
  unfold date_half.
  rewrite !every_append, every_iso_year.
  rewrite !(every_weaken is_digit date_char (padded 2 _) digit_is_date_char
              (every_padded _ _)).
  reflexivity.
Qed.

Lemma date_char_not_T c : date_char c = true -> not_T c = true.
Proof.
  unfold date_char, not_T.
  destruct (Ascii.eqb_spec "T" c) as [<-|]; [discriminate | reflexivity].
Qed.

(** Splitting at ["T"] cuts after a prefix that has no ["T"]. *)
Lemma split_pieces_T p rest :
  every not_T p = true ->
  split_pieces "T" 0 (p ++ String "T" rest) =
    (p, let '(q, qs) := split_pieces "T" 0 rest in q :: qs).
Proof.
  induction p as [|c p IH]; cbn [every append]; intros H.
  - cbn. now destruct (split_pieces "T" 0 rest).
  - apply andb_prop in H as [Hc Hp].
    cbn [split_pieces starts_with]. unfold not_T in Hc.
    destruct (Ascii.eqb "T" c); [discriminate|]. cbn [andb].
    now rewrite (IH Hp).
Qed.

Lemma toISOString_halves t :
  exists time_half, toISOString t = date_half t ++ String "T" time_half.
Proof.
  unfold toISOString, date_half. eexists.
  rewrite !append_assoc. cbn [append]. reflexivity.
Qed.

(** The date [createInvoice] stamps is the date half of the timestamp. *)
Lemma stamped_date_half t : stamped t = Str (date_half t).
Proof.
  unfold stamped. destruct (toISOString_halves t) as [h ->].
  unfold split. rewrite split_pieces_T.
  - reflexivity.
  - apply (every_weaken date_char); [exact date_char_not_T | apply every_date_half].
Qed.
End Strings.

(* ================================================================== *)
(** * The layout YYYY-MM-DD *)

Section Layout.
Import JS.
Local Open Scope Z_scope.

Lemma all_from_spec (P : Z -> bool) n : forall z,
  all_from P z n = true -> forall x, z <= x < z + Z.of_nat n -> P x = true.
Proof.
  induction n as [|n IH]; intros z H x Hx; [lia|].
  cbn [all_from] in H. apply andb_prop in H as [Hz Hn].
  destruct (Z.eq_dec x z) as [->|Hne]; [assumption|].
  apply (IH (z + 1) Hn). lia.
Qed.

Lemma padded_4 y : 0 <= y <= 9999 -> padded 4 y = Spec.four_digits y.
Proof.
  intros H. apply String.eqb_eq.
  assert (all_from (fun y => String.eqb (padded 4 y) (Spec.four_digits y))
            0 (Z.to_nat 10000) = true) as E by (vm_compute; reflexivity).
  apply (all_from_spec _ _ _ E). lia.
Qed.

Lemma padded_2 n : 0 <= n <= 99 -> padded 2 n = Spec.two_digits n.
Proof.
  intros H. apply String.eqb_eq.
  assert (all_from (fun n => String.eqb (padded 2 n) (Spec.two_digits n))
            0 (Z.to_nat 100) = true) as E by (vm_compute; reflexivity).
  apply (all_from_spec _ _ _ E). lia.
Qed.

Lemma days_in_month_bound y m : Spec.days_in_month y m <= 31.
Proof.
  unfold Spec.days_in_month.
  destruct m as [|p|p]; try lia.
  do 4 (try destruct p as [p|p|]); try destruct (Spec.leap_year y); lia.
Qed.

(** The time values of the years 0 to 9999. *)
Lemma year_within_layout t :
  -62167219200000 <= t <= 253402300799999 -> 0 <= YearFromTime t <= 9999.
Proof.
  intros Ht. unfold YearFromTime.
  pose proof (year_of_day_spec (Day t)) as Hy.
  assert (-719528 <= Day t <= 2932896) as Hd
    by (unfold Day, msPerDay; Z.div_mod_to_equations; lia).
  revert Hy Hd. generalize (year_of_day (Day t)) (Day t). intros y d.
  unfold DayFromYear. intros Hy Hd. Z.div_mod_to_equations. lia.
Qed.

Lemma date_half_layout t :
  0 <= YearFromTime t <= 9999 ->
  date_half t = Spec.YYYY_MM_DD (YearFromTime t) (MonthFromTime t + 1) (DateFromTime t).
Proof.
  intros Hy. unfold date_half, iso_year, Spec.YYYY_MM_DD.
  destruct (utc_date_of_time t) as (Hm & Hd & _).
  pose proof (days_in_month_bound (YearFromTime t) (MonthFromTime t + 1)).
  replace ((0 <=? YearFromTime t) && (YearFromTime t <=? 9999)) with true
    by (symmetry; apply andb_true_intro; split; apply Z.leb_le; lia).
  rewrite padded_4 by lia. rewrite !padded_2 by lia. reflexivity.
Qed.

Lemma stamped_utc_date t :
  exists y m d,
    Spec.utc_date_at t y m d /\
    (0 <= y <= 9999 -> stamped t = Str (Spec.YYYY_MM_DD y m d)).
Proof.
  exists (YearFromTime t), (MonthFromTime t + 1), (DateFromTime t).
  split; [apply utc_date_of_time|].
  intros Hy. now rewrite stamped_date_half, date_half_layout.
Qed.
End Layout.

(* ================================================================== *)
(** * Validation, field by field *)

Section Handlers.
Context {R : release}.
Local Open Scope string_scope.

Lemma safeParse_submitted formData :
  safeParse CreateInvoice (submitted formData) =
    match check z_string (get formData "customerId"),
          check z_coerce_number (get formData "amount"),
          check (z_enum statuses) (get formData "status") with
    | Some c, Some a, Some s => inl [("customerId", c); ("amount", a); ("status", s)]
    | oc, oa, os =>
        inr (refused "customerId" oc ++ refused "amount" oa ++ refused "status" os)%list
    end.
Proof.
  unfold safeParse, CreateInvoice, submitted. cbn -[check].
  destruct (check z_string (get formData "customerId")),
           (check z_coerce_number (get formData "amount")),
           (check (z_enum _) (get formData "status")); reflexivity.
Qed.

Lemma check_string_inv v v' :
  check z_string v = Some v' <-> exists s, v = Str s /\ v' = Str s.
Proof.
  split.
  - destruct v; cbn; intros [= <-]; eauto.
  - intros (s & -> & ->). reflexivity.
Qed.

Lemma check_number_inv v v' :
  check z_coerce_number v = Some v' -> v' = Num (ToNumber v).
Proof.
  cbn. destruct (is_nan _); [discriminate|].
  destruct (_ && _); [discriminate|]. now intros [= <-].
Qed.

Lemma check_status_inv v v' :
  check (z_enum statuses) v = Some v' <->
  (v = Str "pending" \/ v = Str "paid") /\ v' = v.
Proof.
  split.
  - destruct v as [| |s| |]; cbn; try discriminate.
    destruct (String.eqb_spec s "pending") as [->|]; [intros [= <-]; auto|].
    destruct (String.eqb_spec s "paid") as [->|]; [intros [= <-]; auto|].
    discriminate.
  - intros ([-> | ->] & ->); reflexivity.
Qed.

(** What passing validation means, field by field. *)
Lemma passes_fields formData :
  passes formData = true <->
  exists c s,
    get formData "customerId" = Str c /\
    check z_coerce_number (get formData "amount")
      = Some (Num (ToNumber (get formData "amount"))) /\
    get formData "status" = Str s /\ (s = "pending" \/ s = "paid").
Proof.
  unfold passes. rewrite safeParse_submitted. split.
  - destruct (check z_string (get formData "customerId")) as [c|] eqn:Ec,
             (check z_coerce_number (get formData "amount")) as [a|] eqn:Ea,
             (check (z_enum statuses) (get formData "status")) as [s|] eqn:Es;
      try discriminate.
    intros _.
    apply check_string_inv in Ec as (c' & Hc & _).
    pose proof (check_number_inv _ _ Ea) as ->.
    apply check_status_inv in Es as (Hs & _).
    destruct Hs as [Hs|Hs]; eauto 8.
  - intros (c & s & Hc & Ha & Hs & Hv). rewrite Hc, Ha, Hs.
    destruct Hv as [-> | ->]; reflexivity.
Qed.
End Handlers.

(* ================================================================== *)
(** * What each action does *)

Section Runs.
Context {R : release}.
Local Open Scope string_scope.

Lemma parse_passes formData :
  passes formData = true ->
  parse CreateInvoice (submitted formData) =
    ret [ ("customerId", get formData "customerId");
          ("amount", Num (ToNumber (get formData "amount")));
          ("status", get formData "status") ].
Proof.
  intros (c & s & Hc & Ha & Hs & Hv)%passes_fields.
  unfold parse. rewrite safeParse_submitted, Hc, Ha, Hs.
  destruct Hv as [-> | ->]; reflexivity.
Qed.

Lemma parse_fails formData :
  passes formData = false ->
  parse CreateInvoice (submitted formData) =
    throw (ZodError (issues_of formData)).
Proof.
  unfold passes, parse, issues_of. rewrite safeParse_submitted.
  destruct (check z_string (get formData "customerId")),
           (check z_coerce_number (get formData "amount")),
           (check (z_enum statuses) (get formData "status"));
    try discriminate; reflexivity.
Qed.

(** A create whose form passes validation: the insert goes to the store;
    its failure is logged; then the path is revalidated and the action
    redirects. *)
Lemma createInvoice_passes formData w :
  passes formData = true ->
  createInvoice formData w =
    let q := insertion formData (now w) in
    (Throw (NEXT_REDIRECT listing),
     record (RevalidatePath listing)
       match store_fault w q with
       | Some message => record (ConsoleError (PostgresError message)) (record (Query q) w)
       | None => commit q w
       end).
Proof.
  intros Hp. pose proof (parse_passes _ Hp) as Hparse.
  apply passes_fields in Hp as (c & s & Hc & _ & Hs & _).
  unfold createInvoice, bind. fold (submitted formData). rewrite Hparse.
  cbn -[ToNumber stamped toISOString split store_fault].
  unfold try_catch, sql, insertion, cents. fold (stamped (now w)).
  rewrite Hc, Hs, stamped_date_half. cbn [Postgres.parameters existsb is_undefined orb].
  destruct (store_fault w _); reflexivity.
Qed.

(** A create whose form fails validation throws before anything else. *)
Lemma createInvoice_fails formData w :
  passes formData = false ->
  createInvoice formData w = (Throw (ZodError (issues_of formData)), w).
Proof.
  intros Hp. unfold createInvoice, bind. fold (submitted formData).
  rewrite (parse_fails _ Hp). reflexivity.
Qed.

Lemma updateInvoice_passes id formData w :
  passes formData = true ->
  updateInvoice id formData w =
    let q := revision id formData in
    (Throw (NEXT_REDIRECT listing),
     record (RevalidatePath listing)
       match store_fault w q with
       | Some message => record (ConsoleError (PostgresError message)) (record (Query q) w)
       | None => commit q w
       end).
Proof.
  intros Hp. pose proof (parse_passes _ Hp) as Hparse.
  apply passes_fields in Hp as (c & s & Hc & _ & Hs & _).
  unfold updateInvoice, bind. fold (submitted formData).
  change UpdateInvoice with CreateInvoice. rewrite Hparse.
  cbn -[ToNumber store_fault].
  unfold try_catch, sql, revision, cents.
  rewrite Hc, Hs. cbn [Postgres.parameters existsb is_undefined orb].
  destruct (store_fault w _); reflexivity.
Qed.

Lemma updateInvoice_fails id formData w :
  passes formData = false ->
  updateInvoice id formData w = (Throw (ZodError (issues_of formData)), w).
Proof.
  intros Hp. unfold updateInvoice, bind. fold (submitted formData).
  change UpdateInvoice with CreateInvoice.
  rewrite (parse_fails _ Hp). reflexivity.
Qed.

(** The earlier [createInvoice] let the store's error out, with nothing
    revalidated; the two revisions agree whenever the store takes the
    insert or validation fails. *)
Lemma earlier_createInvoice_passes formData w :
  passes formData = true ->
  Earlier.createInvoice formData w =
    let q := insertion formData (now w) in
    match store_fault w q with
    | Some message => (Throw (PostgresError message), record (Query q) w)
    | None => createInvoice formData w
    end.
Proof.
  intros Hp. rewrite (createInvoice_passes _ w Hp).
  pose proof (parse_passes _ Hp) as Hparse.
  apply passes_fields in Hp as (c & s & Hc & _ & Hs & _).
  unfold Earlier.createInvoice, bind. fold (submitted formData). rewrite Hparse.
  cbn -[ToNumber stamped toISOString split store_fault].
  unfold sql, insertion, cents. fold (stamped (now w)).
  rewrite Hc, Hs, stamped_date_half. cbn [Postgres.parameters existsb is_undefined orb].
  destruct (store_fault w _); reflexivity.
Qed.

Lemma earlier_createInvoice_fails formData w :
  passes formData = false ->
  Earlier.createInvoice formData w = createInvoice formData w.
Proof.
  intros Hp. rewrite (createInvoice_fails _ w Hp).
  unfold Earlier.createInvoice, bind. fold (submitted formData).
  rewrite (parse_fails _ Hp). reflexivity.
Qed.

Lemma deleteInvoice_run id w :
  deleteInvoice id w =
    match store_fault w (removal id) with
    | Some message => (Throw (PostgresError message), record (Query (removal id)) w)
    | None => (Return tt, record (RevalidatePath listing) (commit (removal id) w))
    end.
Proof.
  unfold deleteInvoice, bind, sql, removal. cbn [Postgres.parameters existsb is_undefined orb].
  destruct (store_fault w _); reflexivity.
Qed.
End Runs.

(* ================================================================== *)
(** * Rounding a whole number *)

Section Rounding.
Local Open Scope Z_scope.

Lemma round_of_whole x n : Spec.whole x = Some n -> Spec.round x = Some n.
Proof.
  unfold Spec.whole, Spec.round.
  destruct (Prim2SF x) as [s|s| |s m e]; try discriminate; [trivial|].
  set (k := if s then Z.neg m else Z.pos m).
  destruct (0 <=? e) eqn:He; [trivial|].
  apply Z.leb_gt in He.
  assert (0 < 2 ^ (- e)) as Hp by (apply Z.pow_pos_nonneg; lia).
  destruct (Z.eqb_spec (k mod 2 ^ (- e)) 0) as [Hm|]; [|discriminate].
  intros [= <-]. f_equal. symmetry.
  apply (Z.div_unique _ _ _ (2 ^ (- e))); [lia|].
  pose proof (Z.div_mod k (2 ^ (- e))). lia.
Qed.
End Rounding.

(* ================================================================== *)
(** * Statements sent and tables left *)

Section Tables.
Context {R : release}.

Lemma value_eqb_Str v s : Postgres.value_eqb v (Str s) = true <-> v = Str s.
Proof.
  destruct v as [| |x| |]; cbn; try (split; [discriminate | intros [=]]).
  rewrite String.eqb_eq. split; [now intros -> | now intros [= ->]].
Qed.

Lemma createInvoice_sends formData w :
  passes formData = true ->
  In (Query (insertion formData (now w))) (calls (after (createInvoice formData w))).
Proof.
  intros Hp. rewrite (createInvoice_passes _ w Hp). cbv zeta.
  unfold after; cbn [snd]. destruct (store_fault w (insertion _ _));
    cbn [calls record commit]; rewrite ?in_app_iff; cbn [In]; auto 8.
Qed.

Lemma updateInvoice_sends id formData w :
  passes formData = true ->
  In (Query (revision id formData)) (calls (after (updateInvoice id formData w))).
Proof.
  intros Hp. rewrite (updateInvoice_passes id _ w Hp). cbv zeta.
  unfold after; cbn [snd]. destruct (store_fault w (revision _ _));
    cbn [calls record commit]; rewrite ?in_app_iff; cbn [In]; auto 8.
Qed.

(** The table a create leaves when the store takes the statement. *)
Lemma table_after_create formData w :
  passes formData = true ->
  accepts w (insertion formData (now w)) ->
  invoices (after (createInvoice formData w))
    = (invoices w ++
       [ {| Postgres.id := Str (new_id w (inserted w));
            Postgres.customer_id := get formData "customerId";
            Postgres.amount := Num (cents formData);
            Postgres.status := get formData "status";
            Postgres.date := stamped (now w) |} ])%list.
Proof.
  intros Hp Hok. rewrite (createInvoice_passes _ w Hp). cbv zeta.
  unfold accepts in Hok. now rewrite Hok.
Qed.

(** The table an update leaves. *)
Lemma table_after_update id formData w :
  invoices (after (updateInvoice id formData w))
    = if passes formData
      then match store_fault w (revision id formData) with
           | Some _ => invoices w
           | None => Postgres.execute (new_id w (inserted w)) (revision id formData) (invoices w)
           end
      else invoices w.
Proof.
  destruct (passes formData) eqn:Hp.
  - rewrite (updateInvoice_passes id _ w Hp). cbv zeta.
    destruct (store_fault w (revision id formData)); reflexivity.
  - now rewrite (updateInvoice_fails id _ w Hp).
Qed.

(** Every row an accepted update leaves under [id] carries the new amount. *)
Lemma amount_after_update id formData w row :
  passes formData = true ->
  accepts w (revision id formData) ->
  In row (invoices (after (updateInvoice id formData w))) ->
  Postgres.id row = Str id ->
  Postgres.amount row = Num (cents formData).
Proof.
  intros Hp Hok. rewrite table_after_update, Hp. unfold accepts in Hok. rewrite Hok.
  cbn [Postgres.execute revision]. intros (r & <- & _)%in_map_iff.
  destruct (Postgres.value_eqb (Postgres.id r) (Str id)) eqn:E; [reflexivity|].
  intros Hid. apply value_eqb_Str in Hid. congruence.
Qed.

(** A statement that selects by an absent identifier leaves the table. *)
Lemma execute_unknown_id fresh q id (t : Postgres.table) :
  (forall row, In row t -> Postgres.id row <> Str id) ->
  (exists c a s, q = Postgres.UPDATE c a s (Str id)) \/ q = Postgres.DELETE (Str id) ->
  Postgres.execute fresh q t = t.
Proof.
  intros Hnone Hq.
  assert (forall r, In r t -> Postgres.value_eqb (Postgres.id r) (Str id) = false) as Hf.
  { intros r Hr. destruct (Postgres.value_eqb (Postgres.id r) (Str id)) eqn:E; [|reflexivity].
    apply value_eqb_Str in E. now destruct (Hnone r Hr). }
  clear Hnone. destruct Hq as [(c & a & s & ->) | ->]; cbn [Postgres.execute].
  - induction t as [|r t IH]; [reflexivity|]. cbn [map].
    rewrite (Hf r (or_introl eq_refl)). f_equal. apply IH.
    intros r' Hr'. apply Hf. now right.
  - induction t as [|r t IH]; [reflexivity|]. cbn [filter].
    rewrite (Hf r (or_introl eq_refl)). cbn [negb]. f_equal. apply IH.
    intros r' Hr'. apply Hf. now right.
Qed.

Lemma status_refused formData :
  get formData "status" <> Str "pending" ->
  get formData "status" <> Str "paid" ->
  passes formData = false /\ In "status" (issues_of formData).
Proof.
  intros H1 H2. split.
  - destruct (passes formData) eqn:E; [|reflexivity].
    apply passes_fields in E as (c & s & _ & _ & Hst & [-> | ->]); contradiction.
  - assert (check (z_enum statuses) (get formData "status") = None) as Hs.
    { destruct (check (z_enum statuses) (get formData "status")) eqn:E; [|reflexivity].
      apply check_status_inv in E as ([? | ?] & _); contradiction. }
    unfold issues_of. rewrite Hs, !in_app_iff. cbn. auto.
Qed.

Lemma customerId_refused formData :
  (forall s, get formData "customerId" <> Str s) ->
  passes formData = false /\ In "customerId" (issues_of formData).
Proof.
  intros Hc. split.
  - destruct (passes formData) eqn:E; [|reflexivity].
    apply passes_fields in E as (c & s & Hg & _). now destruct (Hc c).
  - assert (check z_string (get formData "customerId") = None) as Hs.
    { destruct (get formData "customerId") as [| |s| |]; try reflexivity.
      now destruct (Hc s). }
    unfold issues_of. rewrite Hs. cbn. auto.
Qed.

End Tables.

(* ================================================================== *)
(** * Sample runs *)

Example Number_of_decimal_strings :
  StringToNumber "12.50" = 12.5%float /\
  StringToNumber " 50 " = 50%float /\
  StringToNumber "0.07" = 0x1.1eb851eb851ecp-4%float /\
  StringToNumber "" = 0%float /\
  StringToNumber "1e3" = 1000%float /\
  StringToNumber "0x1F" = 31%float /\
  is_nan (StringToNumber "12px") = true /\
  is_nan (StringToNumber "1.2.3") = true.
Proof. vm_compute. repeat split. Qed.

Example products_by_100 :
  (StringToNumber "12.50" * 100 = 1250)%float /\
  (StringToNumber "10.5" * 100 = 1050)%float /\
  (StringToNumber "0.07" * 100 = 0x1.c000000000001p+2)%float /\
  (StringToNumber "1.1" * 100 = 0x1.b800000000001p+6)%float /\
  (StringToNumber "12.345" * 100 = 1234.5)%float /\
  Spec.round 1234.5%float = Some 1235 /\
  Spec.round (-1234.5)%float = Some (-1234) /\
  Spec.whole 1234.5%float = None /\
  Spec.whole 1250%float = Some 1250.
Proof. vm_compute. repeat split. Qed.

Example epoch_timestamps :
  toISOString 0 = "1970-01-01T00:00:00.000Z" /\
  toISOString 951868799999 = "2000-02-29T23:59:59.999Z" /\
  toISOString (-1) = "1969-12-31T23:59:59.999Z" /\
  toISOString 253402300800000 = "+010000-01-01T00:00:00.000Z" /\
  split "T" (toISOString 1793646793123) = ["2026-11-02"; "19:13:13.123Z"].
Proof. vm_compute. repeat split. Qed.

Example update_inv1_run :
  invoices (after (@updateInvoice zod3 "inv1" (Sample.form "c2" "10.5" "paid") Sample.world0))
    = [ {| Postgres.id := Str "inv1"; Postgres.customer_id := Str "c2";
           Postgres.amount := Num 1050%float; Postgres.status := Str "paid";
           Postgres.date := Str "2020-01-01" |} ].
Proof. vm_compute. reflexivity. Qed.

(* ================================================================== *)
(** * Properties of the specification *)

(** C1 (amended).  For every form that passes validation, with [a] the
    number its amount field converts to, [createInvoice] and
    [updateInvoice] bind the double-precision product [a * 100] to the
    amount column, as computed and with no rounding: it is in the statement
    sent, in the new row, and in every row updated, once the store has
    taken the statement.  The product is the integer [round (a * 100)]
    whenever it is a whole number. *)
Theorem amount_bound_unrounded {R : release} formData id w :
  passes formData = true ->
  In (Query (Postgres.INSERT (get formData "customerId")
               (Num (ToNumber (get formData "amount") * 100)%float)
               (get formData "status") (stamped (now w))))
     (calls (after (createInvoice formData w))) /\
  In (Query (Postgres.UPDATE (get formData "customerId")
               (Num (ToNumber (get formData "amount") * 100)%float)
               (get formData "status") (Str id)))
     (calls (after (updateInvoice id formData w))) /\
  (accepts w (insertion formData (now w)) ->
   exists row,
     invoices (after (createInvoice formData w)) = (invoices w ++ [row])%list /\
     Postgres.amount row = Num (ToNumber (get formData "amount") * 100)%float) /\
  (accepts w (revision id formData) ->
   forall row,
     In row (invoices (after (updateInvoice id formData w))) ->
     Postgres.id row = Str id ->
     Postgres.amount row = Num (ToNumber (get formData "amount") * 100)%float) /\
  (forall n,
     Spec.whole (ToNumber (get formData "amount") * 100)%float = Some n ->
     Spec.round (ToNumber (get formData "amount") * 100)%float = Some n).
Proof.
  intros Hp.
  split; [exact (createInvoice_sends formData w Hp)|].
  split; [exact (updateInvoice_sends id formData w Hp)|].
  split; [|split].
  - intros Hok. eexists. split; [exact (table_after_create formData w Hp Hok)|reflexivity].
  - intros Hok row. exact (amount_after_update id formData w row Hp Hok).
  - intros n. apply round_of_whole.
Qed.

Lemma amount_bound_unrounded_witness :
  @passes zod3 (Sample.form "c1" "12.50" "paid") = true /\
  exists row,
    invoices (after (@createInvoice zod3 (Sample.form "c1" "12.50" "paid") Sample.world0))
      = (invoices Sample.world0 ++ [row])%list /\
    Postgres.amount row = Num 1250%float.
Proof.
  split; [vm_compute; reflexivity|].
  destruct (@amount_bound_unrounded zod3 (Sample.form "c1" "12.50" "paid") "inv1"
              Sample.world0 eq_refl) as (_ & _ & H & _).
  destruct (H eq_refl) as (row & Hrow & Hamount).
  exists row. split; [exact Hrow | exact Hamount].
Defined.

(** C1 (counterexample): seven cents.  The form passes validation and the
    store takes the statement, yet the amount in the new row is the double
    7.000000000000001 (0x1.c000000000001p+2), which is no integer, while
    [round (a * 100)] is 7.  Whatever the store does with the statement,
    that double is what the statement binds, and the table is either left
    as it was or gains a row holding it. *)
Lemma seven_cents_not_rounded :
  @passes zod3 (Sample.form "c1" "0.07" "pending") = true /\
  accepts Sample.world0 (insertion (Sample.form "c1" "0.07" "pending") (now Sample.world0)) /\
  (exists row,
     invoices (after (@createInvoice zod3 (Sample.form "c1" "0.07" "pending") Sample.world0))
       = (invoices Sample.world0 ++ [row])%list /\
     Postgres.amount row = Num 0x1.c000000000001p+2%float /\
     ~ rounded_cents (ToNumber (Str "0.07")) (Postgres.amount row)) /\
  Spec.whole 0x1.c000000000001p+2%float = None /\
  Spec.round (ToNumber (Str "0.07") * 100)%float = Some 7 /\
  (forall w,
     In (Query (Postgres.INSERT (Str "c1") (Num 0x1.c000000000001p+2%float)
                  (Str "pending") (stamped (now w))))
        (calls (after (@createInvoice zod3 (Sample.form "c1" "0.07" "pending") w))) /\
     (invoices (after (@createInvoice zod3 (Sample.form "c1" "0.07" "pending") w))
        = invoices w \/
      exists row,
        invoices (after (@createInvoice zod3 (Sample.form "c1" "0.07" "pending") w))
          = (invoices w ++ [row])%list /\
        Postgres.amount row = Num 0x1.c000000000001p+2%float)).
Proof.
  assert (@passes zod3 (Sample.form "c1" "0.07" "pending") = true) as Hp
    by (vm_compute; reflexivity).
  assert (cents (Sample.form "c1" "0.07" "pending") = 0x1.c000000000001p+2%float) as Hc
    by (vm_compute; reflexivity).
  split; [exact Hp|]. split; [reflexivity|]. split; [|split; [|split]].
  - eexists. split; [vm_compute; reflexivity|]. split; [reflexivity|].
    intros (n & x & _ & Hx & Hw). cbn in Hx. injection Hx as <-.
    vm_compute in Hw. discriminate Hw.
  - vm_compute. reflexivity.
  - vm_compute. reflexivity.
  - intros w. split.
    + pose proof (createInvoice_sends (Sample.form "c1" "0.07" "pending") w Hp) as H.
      unfold insertion in H. rewrite Hc in H. exact H.
    + rewrite (createInvoice_passes _ w Hp). cbv zeta.
      destruct (store_fault w (insertion (Sample.form "c1" "0.07" "pending") (now w))).
      * left. reflexivity.
      * right. eexists. split; [reflexivity|]. cbn [Postgres.amount]. now rewrite Hc.
Qed.

(** C2.  When the store raises on the statement sent: [createInvoice] and
    [updateInvoice] log the error with [console.error], then call
    [revalidatePath] and complete with the redirect to
    [/dashboard/invoices], no error leaving them and the table as it was;
    [deleteInvoice] completes by throwing the store's error, having
    called neither [revalidatePath] nor anything else. *)
Theorem store_failure_logged_or_propagated {R : release} formData id w message :
  (passes formData = true ->
   store_fault w (insertion formData (now w)) = Some message ->
   outcome (createInvoice formData w) = Throw (NEXT_REDIRECT "/dashboard/invoices") /\
   calls (after (createInvoice formData w))
     = (calls w ++ [ Query (insertion formData (now w));
                     ConsoleError (PostgresError message);
                     RevalidatePath "/dashboard/invoices" ])%list /\
   invoices (after (createInvoice formData w)) = invoices w) /\
  (passes formData = true ->
   store_fault w (revision id formData) = Some message ->
   outcome (updateInvoice id formData w) = Throw (NEXT_REDIRECT "/dashboard/invoices") /\
   calls (after (updateInvoice id formData w))
     = (calls w ++ [ Query (revision id formData);
                     ConsoleError (PostgresError message);
                     RevalidatePath "/dashboard/invoices" ])%list /\
   invoices (after (updateInvoice id formData w)) = invoices w) /\
  (store_fault w (removal id) = Some message ->
   outcome (deleteInvoice id w) = Throw (PostgresError message) /\
   calls (after (deleteInvoice id w)) = (calls w ++ [Query (removal id)])%list /\
   invoices (after (deleteInvoice id w)) = invoices w).
Proof.
  split; [|split].
  - intros Hp Hf. rewrite (createInvoice_passes _ w Hp). cbv zeta. rewrite Hf.
    unfold outcome, after, record; cbn. rewrite <- !app_assoc. auto.
  - intros Hp Hf. rewrite (updateInvoice_passes id _ w Hp). cbv zeta. rewrite Hf.
    unfold outcome, after, record; cbn. rewrite <- !app_assoc. auto.
  - intros Hf. rewrite deleteInvoice_run, Hf. auto.
Qed.

Lemma store_failure_witness :
  outcome (@createInvoice zod3 (Sample.form "c1" "50" "pending") Sample.offline)
    = Throw (NEXT_REDIRECT "/dashboard/invoices") /\
  outcome (@updateInvoice zod3 "inv1" (Sample.form "c1" "50" "pending") Sample.offline)
    = Throw (NEXT_REDIRECT "/dashboard/invoices") /\
  outcome (deleteInvoice "inv1" Sample.offline) = Throw (PostgresError "CONNECT_TIMEOUT").
Proof.
  destruct (@store_failure_logged_or_propagated zod3 (Sample.form "c1" "50" "pending")
              "inv1" Sample.offline "CONNECT_TIMEOUT") as (Hc & Hu & Hd).
  split; [apply Hc; vm_compute; reflexivity|].
  split; [apply Hu; vm_compute; reflexivity|].
  apply Hd. reflexivity.
Defined.

(** C3.  The status field of both schemas is the enumeration of
    ["pending"] and ["paid"]: it accepts these two strings and no other
    value.  For every form whose status is anything else, both actions
    throw the validation error with an issue at [status] and leave the
    world as it was: no call on the store, none at all, has been made. *)
Theorem status_is_pending_or_paid {R : release} formData id w :
  In ("status", z_enum ["pending"; "paid"]) CreateInvoice /\
  In ("status", z_enum ["pending"; "paid"]) UpdateInvoice /\
  (forall v,
     (exists parsed, check (z_enum ["pending"; "paid"]) v = Some parsed)
     <-> v = Str "pending" \/ v = Str "paid") /\
  (get formData "status" <> Str "pending" ->
   get formData "status" <> Str "paid" ->
   In "status" (issues_of formData) /\
   createInvoice formData w = (Throw (ZodError (issues_of formData)), w) /\
   updateInvoice id formData w = (Throw (ZodError (issues_of formData)), w)).
Proof.
  split; [cbn; auto|]. split; [cbn; auto|]. split.
  - intros v. split.
    + intros (parsed & H). now apply check_status_inv in H.
    + intros H. exists v. now apply check_status_inv.
  - intros H1 H2. destruct (status_refused formData H1 H2) as (Hp & Hin).
    split; [exact Hin|]. split.
    + now apply createInvoice_fails.
    + now apply updateInvoice_fails.
Qed.

Lemma overdue_status_witness :
  @createInvoice zod3 (Sample.form "c1" "50" "overdue") Sample.world0
    = (Throw (ZodError ["status"]), Sample.world0) /\
  @updateInvoice zod3 "inv1" (Sample.form "c1" "50" "overdue") Sample.world0
    = (Throw (ZodError ["status"]), Sample.world0).
Proof.
  destruct (@status_is_pending_or_paid zod3 (Sample.form "c1" "50" "overdue") "inv1"
              Sample.world0) as (_ & _ & _ & H).
  destruct H as (_ & Hc & Hu); [discriminate | discriminate |].
  split; [exact Hc | exact Hu].
Defined.

(** C4.  For every create request whose form carries customerId ["c1"],
    amount ["50"] and status ["pending"], on a store that takes the
    insert: the table gains one row with customer_id ["c1"], amount 5000,
    status ["pending"] and the date stamped from the clock, which is the
    UTC calendar date of the clock (laid out YYYY-MM-DD in the years 0 to
    9999); the calls are the insert and then [revalidatePath] of
    [/dashboard/invoices]; and the action completes with the redirect to
    [/dashboard/invoices]. *)
Theorem create_c1_fifty_pending {R : release} formData w :
  get formData "customerId" = Str "c1" ->
  get formData "amount" = Str "50" ->
  get formData "status" = Str "pending" ->
  accepts w (Postgres.INSERT (Str "c1") (Num 5000%float) (Str "pending") (stamped (now w))) ->
  invoices (after (createInvoice formData w))
    = (invoices w ++
       [ {| Postgres.id := Str (new_id w (inserted w));
            Postgres.customer_id := Str "c1";
            Postgres.amount := Num 5000%float;
            Postgres.status := Str "pending";
            Postgres.date := stamped (now w) |} ])%list /\
  (exists y m d,
     Spec.utc_date_at (now w) y m d /\
     (0 <= y <= 9999 -> stamped (now w) = Str (Spec.YYYY_MM_DD y m d))) /\
  calls (after (createInvoice formData w))
    = (calls w ++
       [ Query (Postgres.INSERT (Str "c1") (Num 5000%float) (Str "pending") (stamped (now w)));
         RevalidatePath "/dashboard/invoices" ])%list /\
  outcome (createInvoice formData w) = Throw (NEXT_REDIRECT "/dashboard/invoices").
Proof.
  intros Hc Ha Hs Hok.
  assert (passes formData = true) as Hp.
  { apply passes_fields. exists "c1", "pending". rewrite Hc, Ha, Hs.
    repeat split; auto. }
  assert (insertion formData (now w)
          = Postgres.INSERT (Str "c1") (Num 5000%float) (Str "pending") (stamped (now w))) as Hq.
  { unfold insertion, cents. rewrite Hc, Ha, Hs. reflexivity. }
  rewrite (createInvoice_passes _ w Hp). cbv zeta. rewrite Hq, Hok.
  split; [reflexivity|]. split; [apply stamped_utc_date|].
  split; [|reflexivity].
  unfold after, record, commit; cbn. now rewrite <- app_assoc.
Qed.

Lemma create_c1_fifty_pending_witness :
  invoices (after (@createInvoice zod3 (Sample.form "c1" "50" "pending") Sample.world0))
    = (invoices Sample.world0 ++
       [ {| Postgres.id := Str "inv2";
            Postgres.customer_id := Str "c1";
            Postgres.amount := Num 5000%float;
            Postgres.status := Str "pending";
            Postgres.date := Str "2026-11-02" |} ])%list /\
  outcome (@createInvoice zod3 (Sample.form "c1" "50" "pending") Sample.world0)
    = Throw (NEXT_REDIRECT "/dashboard/invoices").
Proof.
  destruct (@create_c1_fifty_pending zod3 (Sample.form "c1" "50" "pending") Sample.world0
              eq_refl eq_refl eq_refl eq_refl) as (Hrows & _ & _ & Hout).
  split; [|exact Hout].
  rewrite Hrows. vm_compute. reflexivity.
Defined.

(** C5.  For every update request, the table keeps its rows in place, and
    each row keeps its id and its date; a row under another id is left
    whole; and when the form passes validation and the store takes the
    statement, a row under the given id has the form's customerId, the
    amount times 100 and the form's status as its customer_id, amount and
    status. *)
Theorem update_sets_three_columns {R : release} id formData w :
  List.length (invoices (after (updateInvoice id formData w))) = List.length (invoices w) /\
  forall i row,
    nth_error (invoices w) i = Some row ->
    exists row',
      nth_error (invoices (after (updateInvoice id formData w))) i = Some row' /\
      Postgres.id row' = Postgres.id row /\
      Postgres.date row' = Postgres.date row /\
      (Postgres.id row <> Str id -> row' = row) /\
      (Postgres.id row = Str id ->
       passes formData = true ->
       accepts w (revision id formData) ->
       Postgres.customer_id row' = get formData "customerId" /\
       Postgres.amount row' = Num (ToNumber (get formData "amount") * 100)%float /\
       Postgres.status row' = get formData "status").
Proof.
  rewrite table_after_update. unfold accepts.
  assert (forall i row,
            nth_error (invoices w) i = Some row ->
            store_fault w (revision id formData) <> None \/ passes formData = false ->
            exists row',
              nth_error (invoices w) i = Some row' /\
              Postgres.id row' = Postgres.id row /\
              Postgres.date row' = Postgres.date row /\
              (Postgres.id row <> Str id -> row' = row) /\
              (Postgres.id row = Str id ->
               passes formData = true ->
               store_fault w (revision id formData) = None ->
               Postgres.customer_id row' = get formData "customerId" /\
               Postgres.amount row' = Num (ToNumber (get formData "amount") * 100)%float /\
               Postgres.status row' = get formData "status")) as Hsame.
  { intros i row Hrow Hno. exists row.
    split; [exact Hrow|]. split; [reflexivity|]. split; [reflexivity|].
    split; [reflexivity|]. intros _ Hp Hf. destruct Hno; congruence. }
  destruct (passes formData);
    [destruct (store_fault w (revision id formData)) as [message|]|].
  - split; [reflexivity|]. intros i row Hrow.
    apply (Hsame i row Hrow). left. discriminate.
  - clear Hsame. cbn [Postgres.execute revision]. split; [apply length_map|].
    intros i row Hrow. eexists. split; [now rewrite nth_error_map, Hrow|].
    destruct (Postgres.value_eqb (Postgres.id row) (Str id)) eqn:E.
    + apply value_eqb_Str in E.
      split; [reflexivity|]. split; [reflexivity|].
      split; [intros Hne; contradiction|].
      intros _ _ _. split; [reflexivity|]. split; reflexivity.
    + split; [reflexivity|]. split; [reflexivity|]. split; [reflexivity|].
      intros Hid. apply value_eqb_Str in Hid. congruence.
  - split; [reflexivity|]. intros i row Hrow.
    apply (Hsame i row Hrow). now right.
Qed.

Lemma update_inv1_witness :
  exists row',
    nth_error
      (invoices (after (@updateInvoice zod3 "inv1" (Sample.form "c2" "10.5" "paid") Sample.world0)))
      0 = Some row' /\
    Postgres.date row' = Str "2020-01-01" /\
    Postgres.customer_id row' = Str "c2" /\
    Postgres.amount row' = Num 1050%float /\
    Postgres.status row' = Str "paid".
Proof.
  destruct (@update_sets_three_columns zod3 "inv1" (Sample.form "c2" "10.5" "paid")
              Sample.world0) as (_ & H).
  destruct (H 0%nat _ eq_refl) as (row' & Hnth & _ & Hdate & _ & Hset).
  destruct (Hset eq_refl eq_refl eq_refl) as (Hc & Ha & Hs).
  exists row'. split; [exact Hnth|]. split; [exact Hdate|].
  split; [exact Hc|]. split; [exact Ha | exact Hs].
Defined.

(** C6.  For every delete request, [deleteInvoice] never completes with a
    redirect; and on a store that takes the statement it returns
    normally, the table keeps exactly the rows under another id (so it is
    unchanged when no row has the id), and the calls are the delete and
    then [revalidatePath] of [/dashboard/invoices]. *)
Theorem delete_removes_and_revalidates id w :
  (forall url, outcome (deleteInvoice id w) <> Throw (NEXT_REDIRECT url)) /\
  (accepts w (removal id) ->
   outcome (deleteInvoice id w) = Return tt /\
   (forall row,
      In row (invoices (after (deleteInvoice id w)))
      <-> In row (invoices w) /\ Postgres.id row <> Str id) /\
   ((forall row, In row (invoices w) -> Postgres.id row <> Str id) ->
    invoices (after (deleteInvoice id w)) = invoices w) /\
   calls (after (deleteInvoice id w))
     = (calls w ++ [Query (Postgres.DELETE (Str id)); RevalidatePath "/dashboard/invoices"])%list).
Proof.
  rewrite deleteInvoice_run. unfold accepts. split.
  - intros url. destruct (store_fault w (removal id)); discriminate.
  - intros ->. split; [reflexivity|]. split; [|split].
    + intros row. unfold after; cbn. rewrite filter_In, negb_true_iff.
      rewrite <- not_true_iff_false, value_eqb_Str. reflexivity.
    + intros Hnone. unfold after; cbn [snd record commit invoices].
      apply (execute_unknown_id _ _ id); [exact Hnone | now right].
    + unfold after, record, commit, removal; cbn. now rewrite <- app_assoc.
Qed.

Lemma delete_inv1_witness :
  outcome (deleteInvoice "inv1" Sample.world0) = Return tt /\
  invoices (after (deleteInvoice "inv9" Sample.world0)) = invoices Sample.world0 /\
  calls (after (deleteInvoice "inv1" Sample.world0))
    = [Query (Postgres.DELETE (Str "inv1")); RevalidatePath "/dashboard/invoices"].
Proof.
  destruct (delete_removes_and_revalidates "inv1" Sample.world0) as (_ & H).
  destruct (H eq_refl) as (Hout & _ & _ & Hcalls).
  destruct (delete_removes_and_revalidates "inv9" Sample.world0) as (_ & H9).
  destruct (H9 eq_refl) as (_ & _ & Hsame & _).
  split; [exact Hout|]. split; [|exact Hcalls].
  apply Hsame. intros row [<- | []]. discriminate.
Defined.

(** C7.  For every update request whose form passes validation and whose
    id no row has: the table is left as it was, the action completes with
    the redirect to [/dashboard/invoices] and so raises no error, and its
    last call is [revalidatePath] of [/dashboard/invoices]; between the
    update sent and that call nothing is logged when the store took the
    statement. *)
Theorem update_of_unknown_id {R : release} formData id w :
  passes formData = true ->
  (forall row, In row (invoices w) -> Postgres.id row <> Str id) ->
  invoices (after (updateInvoice id formData w)) = invoices w /\
  outcome (updateInvoice id formData w) = Throw (NEXT_REDIRECT "/dashboard/invoices") /\
  exists logged,
    calls (after (updateInvoice id formData w))
      = (calls w ++ [Query (revision id formData)] ++ logged
           ++ [RevalidatePath "/dashboard/invoices"])%list /\
    (accepts w (revision id formData) -> logged = []).
Proof.
  intros Hp Hnone. split; [|split].
  - rewrite table_after_update, Hp.
    destruct (store_fault w (revision id formData)); [reflexivity|].
    apply (execute_unknown_id _ _ id); [exact Hnone|].
    left. unfold revision. eauto.
  - now rewrite (updateInvoice_passes id _ w Hp).
  - rewrite (updateInvoice_passes id _ w Hp). cbv zeta. unfold accepts.
    destruct (store_fault w (revision id formData)) as [message|].
    + exists [ConsoleError (PostgresError message)]. split; [|discriminate].
      unfold after, record; cbn. now rewrite <- !app_assoc.
    + exists []. split; [|reflexivity].
      unfold after, record, commit; cbn. now rewrite <- !app_assoc.
Qed.

Lemma update_of_unknown_id_witness :
  @passes zod3 (Sample.form "c2" "10.5" "paid") = true /\
  invoices (after (@updateInvoice zod3 "inv404" (Sample.form "c2" "10.5" "paid") Sample.world0))
    = invoices Sample.world0 /\
  outcome (@updateInvoice zod3 "inv404" (Sample.form "c2" "10.5" "paid") Sample.world0)
    = Throw (NEXT_REDIRECT "/dashboard/invoices").
Proof.
  split; [vm_compute; reflexivity|].
  assert (forall row, In row (invoices Sample.world0) -> Postgres.id row <> Str "inv404") as Hnone
    by (intros row [<- | []]; discriminate).
  destruct (@update_of_unknown_id zod3 (Sample.form "c2" "10.5" "paid") "inv404"
              Sample.world0 eq_refl Hnone) as (Hrows & Hout & _).
  split; [exact Hrows | exact Hout].
Defined.

(** C8 (amended).  The customerId check accepts every string, the empty
    string included.  For every form whose customerId is no string (the
    field is absent, so that [get] returns [null], or it is a file), both
    actions throw the validation error with an issue at [customerId] and
    leave the world as it was. *)
Theorem customerId_must_be_a_string {R : release} formData id w :
  (forall s, check z_string (Str s) = Some (Str s)) /\
  ((forall s, get formData "customerId" <> Str s) ->
   In "customerId" (issues_of formData) /\
   createInvoice formData w = (Throw (ZodError (issues_of formData)), w) /\
   updateInvoice id formData w = (Throw (ZodError (issues_of formData)), w)).
Proof.
  split; [reflexivity|]. intros Hc.
  destruct (customerId_refused formData Hc) as (Hp & Hin).
  split; [exact Hin|]. split.
  - now apply createInvoice_fails.
  - now apply updateInvoice_fails.
Qed.

Lemma missing_customerId_witness :
  @createInvoice zod3 [("amount", Text "50"); ("status", Text "paid")] Sample.world0
    = (Throw (ZodError ["customerId"]), Sample.world0) /\
  @updateInvoice zod3 "inv1" [("amount", Text "50"); ("status", Text "paid")] Sample.world0
    = (Throw (ZodError ["customerId"]), Sample.world0).
Proof.
  destruct (@customerId_must_be_a_string zod3 [("amount", Text "50"); ("status", Text "paid")]
              "inv1" Sample.world0) as (_ & H).
  destruct H as (_ & Hc & Hu); [intros s; discriminate|].
  split; [exact Hc | exact Hu].
Defined.

(** C8 (counterexample): a form whose customerId is the empty string passes
    validation, under either release of zod, and [createInvoice] inserts a
    row whose customer_id is the empty string. *)
Lemma empty_customerId_accepted :
  get (Sample.form "" "50" "pending") "customerId" = Str "" /\
  @passes zod3 (Sample.form "" "50" "pending") = true /\
  @passes zod4 (Sample.form "" "50" "pending") = true /\
  invoices (after (@createInvoice zod3 (Sample.form "" "50" "pending") Sample.world0))
    = (invoices Sample.world0 ++
       [ {| Postgres.id := Str "inv2";
            Postgres.customer_id := Str "";
            Postgres.amount := Num 5000%float;
            Postgres.status := Str "pending";
            Postgres.date := Str "2026-11-02" |} ])%list /\
  outcome (@updateInvoice zod3 "inv1" (Sample.form "" "50" "pending") Sample.world0)
    = Throw (NEXT_REDIRECT "/dashboard/invoices").
Proof. vm_compute. repeat split. Qed.

(** C9.  The schema of [createInvoice] has the keys customerId, amount
    and status only.  When the clock stands within the years 0 to 9999,
    there is one calendar date, the UTC date of the clock, such that for
    every form that passes validation, on a store that takes the insert,
    the date of the new row is that date laid out YYYY-MM-DD: the date
    comes from the clock, whatever the form holds. *)
Theorem created_date_is_utc_today {R : release} w :
  -62167219200000 <= now w <= 253402300799999 ->
  map fst CreateInvoice = ["customerId"; "amount"; "status"] /\
  exists y m d,
    Spec.utc_date_at (now w) y m d /\
    0 <= y <= 9999 /\
    forall formData,
      passes formData = true ->
      accepts w (insertion formData (now w)) ->
      exists row,
        invoices (after (createInvoice formData w)) = (invoices w ++ [row])%list /\
        Postgres.date row = Str (Spec.YYYY_MM_DD y m d).
Proof.
  intros Hnow. split; [reflexivity|].
  exists (YearFromTime (now w)), (MonthFromTime (now w) + 1), (DateFromTime (now w)).
  pose proof (year_within_layout _ Hnow) as Hy.
  split; [apply utc_date_of_time|]. split; [exact Hy|].
  intros formData Hp Hok. eexists.
  split; [exact (table_after_create formData w Hp Hok)|].
  cbn [Postgres.date]. now rewrite stamped_date_half, date_half_layout.
Qed.

Lemma created_date_witness :
  -62167219200000 <= now Sample.world0 <= 253402300799999 /\
  exists y m d,
    Spec.utc_date_at (now Sample.world0) y m d /\
    exists row,
      invoices (after (@createInvoice zod3
                         [ ("date", Text "1999-12-31"); ("customerId", Text "c1");
                           ("amount", Text "50"); ("status", Text "paid") ]
                         Sample.world0))
        = (invoices Sample.world0 ++ [row])%list /\
      Postgres.date row = Str (Spec.YYYY_MM_DD y m d).
Proof.
  assert (-62167219200000 <= now Sample.world0 <= 253402300799999) as Hnow
    by (cbn; lia).
  split; [exact Hnow|].
  destruct (@created_date_is_utc_today zod3 Sample.world0 Hnow)
    as (_ & y & m & d & Hdate & _ & Hrow).
  exists y, m, d. split; [exact Hdate|].
  apply Hrow; reflexivity.
Defined.

(** C10.  For every form whose amount field is absent ([get] returns
    [null]) or the empty string: the amount check yields the number 0 and
    reports no issue, so that validation passes exactly when customerId is
    a string and status is one of the two literals; and when it passes,
    both actions go on to the store with 0 bound to the amount column,
    which the new row and every row updated then hold once the store has
    taken the statement. *)
Theorem blank_amount_is_zero {R : release} formData id w :
  get formData "amount" = Null \/ get formData "amount" = Str "" ->
  check z_coerce_number (get formData "amount") = Some (Num 0%float) /\
  ~ In "amount" (issues_of formData) /\
  (passes formData = true
   <-> (exists c, get formData "customerId" = Str c) /\
       (get formData "status" = Str "pending" \/ get formData "status" = Str "paid")) /\
  (passes formData = true ->
   In (Query (Postgres.INSERT (get formData "customerId") (Num 0%float)
                (get formData "status") (stamped (now w))))
      (calls (after (createInvoice formData w))) /\
   In (Query (Postgres.UPDATE (get formData "customerId") (Num 0%float)
                (get formData "status") (Str id)))
      (calls (after (updateInvoice id formData w))) /\
   (accepts w (insertion formData (now w)) ->
    exists row,
      invoices (after (createInvoice formData w)) = (invoices w ++ [row])%list /\
      Postgres.amount row = Num 0%float) /\
   (accepts w (revision id formData) ->
    forall row,
      In row (invoices (after (updateInvoice id formData w))) ->
      Postgres.id row = Str id -> Postgres.amount row = Num 0%float)).
Proof.
  intros Hblank.
  assert (check z_coerce_number (get formData "amount") = Some (Num 0%float)) as Hcheck
    by (destruct Hblank as [-> | ->]; reflexivity).
  assert (cents formData = 0%float) as Hcents
    by (unfold cents; destruct Hblank as [-> | ->]; reflexivity).
  split; [exact Hcheck|]. split; [|split].
  - unfold issues_of. rewrite Hcheck, !in_app_iff. cbn [refused In].
    intros [H | [[] | H]].
    + destruct (check z_string (get formData "customerId")); cbn in H;
        [contradiction | destruct H as [H | []]; discriminate H].
    + destruct (check (z_enum statuses) (get formData "status")); cbn in H;
        [contradiction | destruct H as [H | []]; discriminate H].
  - rewrite passes_fields. split.
    + intros (c & s & Hc & _ & Hs & [-> | ->]); eauto.
    + intros ((c & Hc) & Hs).
      rewrite (check_number_inv _ _ Hcheck) in Hcheck.
      destruct Hs as [Hs | Hs]; exists c; eexists; eauto.
  - intros Hp.
    pose proof (createInvoice_sends formData w Hp) as Hcs.
    pose proof (updateInvoice_sends id formData w Hp) as Hus.
    unfold insertion in Hcs. unfold revision in Hus. rewrite Hcents in Hcs, Hus.
    split; [exact Hcs|]. split; [exact Hus|]. split.
    + intros Hok. eexists. split; [exact (table_after_create formData w Hp Hok)|].
      cbn [Postgres.amount]. now rewrite Hcents.
    + intros Hok row Hin Hid. rewrite <- Hcents.
      exact (amount_after_update id formData w row Hp Hok Hin Hid).
Qed.

Lemma blank_amount_witness :
  get [("customerId", Text "c1"); ("status", Text "paid")] "amount" = Null /\
  @passes zod3 [("customerId", Text "c1"); ("status", Text "paid")] = true /\
  exists row,
    invoices (after (@createInvoice zod3 [("customerId", Text "c1"); ("status", Text "paid")]
                       Sample.world0))
      = (invoices Sample.world0 ++ [row])%list /\
    Postgres.amount row = Num 0%float.
Proof.
  split; [reflexivity|].
  destruct (@blank_amount_is_zero zod3 [("customerId", Text "c1"); ("status", Text "paid")]
              "inv1" Sample.world0 (or_introl eq_refl)) as (_ & _ & Hiff & Hrun).
  assert (@passes zod3 [("customerId", Text "c1"); ("status", Text "paid")] = true) as Hp.
  { apply Hiff. split; [exists "c1"; reflexivity | right; reflexivity]. }
  split; [exact Hp|].
  destruct (Hrun Hp) as (_ & _ & Hrow & _).
  apply Hrow. reflexivity.
Defined.

(* ================================================================== *)
(** * Tables and stores across the actions *)

Section Across.
Context {R : release}.

(** The table a create leaves, whatever the form and the store. *)
Lemma table_after_any_create formData w :
  invoices (after (createInvoice formData w))
    = if passes formData
      then match store_fault w (insertion formData (now w)) with
           | Some _ => invoices w
           | None =>
               Postgres.execute (new_id w (inserted w)) (insertion formData (now w))
                 (invoices w)
           end
      else invoices w.
Proof.
  destruct (passes formData) eqn:Hp.
  - rewrite (createInvoice_passes _ w Hp). cbv zeta.
    destruct (store_fault w (insertion formData (now w))); reflexivity.
  - now rewrite (createInvoice_fails _ w Hp).
Qed.

(** The table a delete leaves, whatever the store. *)
Lemma table_after_delete id w :
  invoices (after (deleteInvoice id w))
    = match store_fault w (removal id) with
      | Some _ => invoices w
      | None => Postgres.execute (new_id w (inserted w)) (removal id) (invoices w)
      end.
Proof.
  rewrite deleteInvoice_run. destruct (store_fault w (removal id)); reflexivity.
Qed.

(** No action changes what the store will raise on. *)
Lemma store_fault_kept formData id w :
  store_fault (after (createInvoice formData w)) = store_fault w /\
  store_fault (after (updateInvoice id formData w)) = store_fault w /\
  store_fault (after (deleteInvoice id w)) = store_fault w.
Proof.
  split; [|split].
  - destruct (passes formData) eqn:Hp.
    + rewrite (createInvoice_passes _ w Hp). cbv zeta.
      destruct (store_fault w (insertion formData (now w))); reflexivity.
    + now rewrite (createInvoice_fails _ w Hp).
  - destruct (passes formData) eqn:Hp.
    + rewrite (updateInvoice_passes id _ w Hp). cbv zeta.
      destruct (store_fault w (revision id formData)); reflexivity.
    + now rewrite (updateInvoice_fails id _ w Hp).
  - rewrite deleteInvoice_run. destruct (store_fault w (removal id)); reflexivity.
Qed.

Lemma filter_twice {A} (f : A -> bool) l : filter f (filter f l) = filter f l.
Proof.
  induction l as [|a l IH]; [reflexivity|]. cbn.
  destruct (f a) eqn:E; [cbn; now rewrite E, IH | exact IH].
Qed.

(** The calls of an action that reached the store hold one statement. *)
Lemma one_statement_sent q (w : world) :
  exists made,
    calls (record (RevalidatePath listing)
             match store_fault w q with
             | Some message =>
                 record (ConsoleError (PostgresError message)) (record (Query q) w)
             | None => commit q w
             end) = (calls w ++ made)%list /\
    statements made = [q].
Proof.
  destruct (store_fault w q) as [message|].
  - exists [Query q; ConsoleError (PostgresError message); RevalidatePath listing].
    split; [|reflexivity]. cbn. now rewrite <- !app_assoc.
  - exists [Query q; RevalidatePath listing].
    split; [|reflexivity]. cbn. now rewrite <- !app_assoc.
Qed.

End Across.

(* ================================================================== *)
(** * The product by 100 is a number *)

Section NotANumber.
Local Open Scope Z_scope.

Lemma shr_1_nonneg mrs : 0 <= shr_m mrs -> 0 <= shr_m (shr_1 mrs).
Proof.
  destruct mrs as [m r s]. cbn [shr_m]. intros H.
  destruct m as [|p|p]; [cbn; lia | | lia].
  destruct p; cbn; lia.
Qed.

Lemma iter_shr_1_nonneg n : forall mrs,
  0 <= shr_m mrs -> 0 <= shr_m (iter_pos shr_1 n mrs).
Proof.
  induction n as [n IH|n IH|]; intros mrs H; cbn [iter_pos].
  - apply IH, IH, shr_1_nonneg, H.
  - apply IH, IH, H.
  - apply shr_1_nonneg, H.
Qed.

Lemma shr_fexp_nonneg m e l :
  0 <= m -> 0 <= shr_m (fst (shr_fexp prec emax m e l)).
Proof.
  intros H. unfold shr_fexp, shr.
  assert (0 <= shr_m (shr_record_of_loc m l)) as H0
    by (destruct l as [|[]]; exact H).
  destruct (fexp prec emax (Zdigits2 m + e) - e); cbn [fst]; try exact H0.
  now apply iter_shr_1_nonneg.
Qed.

(** Rounding a non-negative mantissa never yields NaN. *)
Lemma binary_round_aux_not_nan s m e l :
  0 <= m -> binary_round_aux prec emax s m e l <> S754_nan.
Proof.
  intros H. unfold binary_round_aux.
  pose proof (shr_fexp_nonneg m e l H) as H1.
  destruct (shr_fexp prec emax m e l) as [mrs' e'] eqn:E1. cbn [fst] in H1.
  assert (0 <= round_nearest_even (shr_m mrs') (loc_of_shr_record mrs')) as H2.
  { unfold round_nearest_even.
    destruct (loc_of_shr_record mrs') as [|[]]; try lia.
    destruct (Z.even (shr_m mrs')); lia. }
  pose proof (shr_fexp_nonneg _ e' loc_Exact H2) as H3.
  destruct (shr_fexp prec emax _ e' loc_Exact) as [mrs'' e''] eqn:E2. cbn [fst] in H3.
  destruct (shr_m mrs'') as [|p|p]; [discriminate | | lia].
  destruct (e'' <=? emax - prec); discriminate.
Qed.

Lemma is_nan_Prim2SF x : is_nan x = true <-> Prim2SF x = S754_nan.
Proof.
  unfold is_nan. rewrite FloatAxioms.eqb_spec, negb_true_iff.
  unfold SFeqb, SFcompare.
  destruct (Prim2SF x) as [s|s| |s m e].
  - destruct s; split; discriminate.
  - destruct s; split; discriminate.
  - split; reflexivity.
  - destruct s; rewrite Z.compare_refl, ?Pos.compare_cont_refl, ?Pos.compare_refl;
      cbn; split; discriminate.
Qed.

Lemma times_100_not_nan x : is_nan x = false -> is_nan (x * 100)%float = false.
Proof.
  intros H.
  destruct (is_nan (x * 100)%float) eqn:E; [|reflexivity].
  apply is_nan_Prim2SF in E. rewrite FloatAxioms.mul_spec in E.
  assert (Prim2SF x <> S754_nan) as Hx.
  { intros Hn. apply is_nan_Prim2SF in Hn. congruence. }
  change (Prim2SF 100%float) with (S754_finite false 7036874417766400 (-46)) in E.
  unfold SF64mul, SFmul in E.
  destruct (Prim2SF x) as [s|s| |s m e]; try discriminate E; [contradiction|].
  now apply binary_round_aux_not_nan in E.
Qed.

End NotANumber.

(* ================================================================== *)
(** * Further properties of the actions *)

(** X1.  In the earlier revision, when the form passes validation and the
    store raises on the insert, [createInvoice] completes by throwing the
    store's error: the insert is its only call (nothing is logged or
    revalidated, and no redirect follows) and the table is as it was. *)
Theorem earlier_create_lets_store_error_out {R : release} formData w message :
  passes formData = true ->
  store_fault w (insertion formData (now w)) = Some message ->
  outcome (Earlier.createInvoice formData w) = Throw (PostgresError message) /\
  calls (after (Earlier.createInvoice formData w))
    = (calls w ++ [Query (insertion formData (now w))])%list /\
  invoices (after (Earlier.createInvoice formData w)) = invoices w.
Proof.
  intros Hp Hf. rewrite (earlier_createInvoice_passes _ w Hp). cbv zeta.
  rewrite Hf. repeat split.
Qed.

Lemma earlier_create_witness :
  outcome (@Earlier.createInvoice zod3 (Sample.form "c1" "50" "pending") Sample.offline)
    = Throw (PostgresError "CONNECT_TIMEOUT") /\
  invoices (after (@Earlier.createInvoice zod3 (Sample.form "c1" "50" "pending") Sample.offline))
    = invoices Sample.offline.
Proof.
  assert (@passes zod3 (Sample.form "c1" "50" "pending") = true) as Hp
    by (vm_compute; reflexivity).
  destruct (@earlier_create_lets_store_error_out zod3 (Sample.form "c1" "50" "pending")
              Sample.offline "CONNECT_TIMEOUT" Hp eq_refl) as (Hout & _ & Hrows).
  split; [exact Hout | exact Hrows].
Defined.

(** X2.  The two revisions of [createInvoice] run alike, in completion and
    in the world they leave, exactly when the store does not raise on the
    insert of a form that passes validation: the [try] of the later
    revision changes the behaviour on a store failure and nothing else. *)
Theorem revisions_differ_on_store_failure_only {R : release} formData w :
  Earlier.createInvoice formData w = createInvoice formData w
  <-> (passes formData = true -> accepts w (insertion formData (now w))).
Proof.
  unfold accepts. destruct (passes formData) eqn:Hp.
  - rewrite (earlier_createInvoice_passes _ w Hp). cbv zeta.
    destruct (store_fault w (insertion formData (now w))) as [message|] eqn:Hf.
    + rewrite (createInvoice_passes _ w Hp). split; [discriminate|].
      intros H. specialize (H eq_refl). discriminate H.
    + split; reflexivity.
  - split; [discriminate|]. intros _. now apply earlier_createInvoice_fails.
Qed.

(** X3.  Validation passes exactly when it reports no issue, and the
    [ZodError] both actions throw lists exactly the refused fields:
    customerId when it is no string, amount when it converts to NaN (or
    to an infinity that the zod release refuses), status when it is
    neither ["pending"] nor ["paid"].  A form that fails validation
    leaves the world as it was, in both actions. *)
Theorem ZodError_lists_the_refused_fields {R : release} formData id w :
  (passes formData = true <-> issues_of formData = []) /\
  (In "customerId" (issues_of formData) <-> forall s, get formData "customerId" <> Str s) /\
  (In "amount" (issues_of formData)
   <-> is_nan (ToNumber (get formData "amount")) = true \/
       is_infinity (ToNumber (get formData "amount")) = true /\
       number_accepts_infinity = false) /\
  (In "status" (issues_of formData)
   <-> get formData "status" <> Str "pending" /\ get formData "status" <> Str "paid") /\
  (forall key,
     In key (issues_of formData) -> key = "customerId" \/ key = "amount" \/ key = "status") /\
  (passes formData = false ->
   createInvoice formData w = (Throw (ZodError (issues_of formData)), w) /\
   updateInvoice id formData w = (Throw (ZodError (issues_of formData)), w)).
Proof.
  assert (forall key checked x, In x (refused key checked) <-> checked = None /\ x = key) as Hr.
  { intros key [v|] x; cbn; split; try tauto; try (intros [H _]; discriminate H).
    - intros [<- | []]. auto.
    - intros [_ ->]. auto. }
  assert (check z_string (get formData "customerId") = None
          <-> forall s, get formData "customerId" <> Str s) as Hc.
  { destruct (get formData "customerId") as [| |s| |]; cbn; split; try discriminate; auto.
    intros H. now destruct (H s). }
  assert (check z_coerce_number (get formData "amount") = None
          <-> is_nan (ToNumber (get formData "amount")) = true \/
              is_infinity (ToNumber (get formData "amount")) = true /\
              number_accepts_infinity = false) as Ha.
  { unfold check. cbv zeta.
    destruct (is_nan (ToNumber (get formData "amount"))); [split; auto|].
    destruct (is_infinity (ToNumber (get formData "amount"))), number_accepts_infinity;
      cbn; (split; [try discriminate; auto
                   | intros [H | [H1 H2]]; try discriminate; reflexivity]). }
  assert (check (z_enum statuses) (get formData "status") = None
          <-> get formData "status" <> Str "pending" /\ get formData "status" <> Str "paid") as Hs.
  { split.
    - intros H. split; intros E; rewrite E in H; discriminate H.
    - intros [H1 H2].
      destruct (check (z_enum statuses) (get formData "status")) eqn:E; [|reflexivity].
      apply check_status_inv in E as ([? | ?] & _); contradiction. }
  split; [|split; [|split; [|split; [|split]]]].
  - unfold passes, issues_of. rewrite safeParse_submitted.
    destruct (check z_string (get formData "customerId")),
             (check z_coerce_number (get formData "amount")),
             (check (z_enum statuses) (get formData "status")); cbn; split;
      try reflexivity; discriminate.
  - unfold issues_of. rewrite !in_app_iff, !Hr, <- Hc.
    split; [intros [[H _] | [[_ H] | [_ H]]]; try discriminate H; exact H | auto].
  - unfold issues_of. rewrite !in_app_iff, !Hr, <- Ha.
    split; [intros [[_ H] | [[H _] | [_ H]]]; try discriminate H; exact H | auto].
  - unfold issues_of. rewrite !in_app_iff, !Hr, <- Hs.
    split; [intros [[_ H] | [[_ H] | [H _]]]; try discriminate H; exact H | auto].
  - intros key. unfold issues_of. rewrite !in_app_iff, !Hr. intuition.
  - intros Hp. split; [now apply createInvoice_fails | now apply updateInvoice_fails].
Qed.

(** X4.  For every form whose amount converts to NaN (a text that is no
    numeric literal, or a file), both actions throw the validation error
    with an issue at [amount] and leave the world as it was: nothing
    reaches the store. *)
Theorem amount_must_be_a_number {R : release} formData id w :
  is_nan (ToNumber (get formData "amount")) = true ->
  In "amount" (issues_of formData) /\
  createInvoice formData w = (Throw (ZodError (issues_of formData)), w) /\
  updateInvoice id formData w = (Throw (ZodError (issues_of formData)), w).
Proof.
  intros Hnan.
  assert (check z_coerce_number (get formData "amount") = None) as Ha
    by (unfold check; cbv zeta; now rewrite Hnan).
  assert (passes formData = false) as Hp.
  { destruct (passes formData) eqn:E; [|reflexivity].
    apply passes_fields in E as (c & s & _ & E & _). congruence. }
  split; [|split].
  - unfold issues_of. rewrite Ha, !in_app_iff. cbn. auto.
  - now apply createInvoice_fails.
  - now apply updateInvoice_fails.
Qed.

Lemma amount_must_be_a_number_witness :
  @createInvoice zod3 (Sample.form "c1" "12 dollars" "paid") Sample.world0
    = (Throw (ZodError ["amount"]), Sample.world0) /\
  @updateInvoice zod3 "inv1" [("customerId", Text "c1"); ("amount", Upload "bill.pdf");
                              ("status", Text "paid")] Sample.world0
    = (Throw (ZodError ["amount"]), Sample.world0).
Proof.
  destruct (@amount_must_be_a_number zod3 (Sample.form "c1" "12 dollars" "paid") "inv1"
              Sample.world0) as (_ & Hc & _); [vm_compute; reflexivity|].
  destruct (@amount_must_be_a_number zod3
              [("customerId", Text "c1"); ("amount", Upload "bill.pdf"); ("status", Text "paid")]
              "inv1" Sample.world0) as (_ & _ & Hu); [vm_compute; reflexivity|].
  split; [exact Hc | exact Hu].
Defined.

(** X5.  The actions read the form through its customerId, amount and
    status only: two forms that give the same three values run alike,
    whatever else they hold (an id, a date, repeated or further entries). *)
Theorem only_three_fields_are_read {R : release} formData formData' id w :
  get formData "customerId" = get formData' "customerId" ->
  get formData "amount" = get formData' "amount" ->
  get formData "status" = get formData' "status" ->
  createInvoice formData w = createInvoice formData' w /\
  updateInvoice id formData w = updateInvoice id formData' w.
Proof.
  intros Hc Ha Hs. unfold createInvoice, updateInvoice.
  now rewrite Hc, Ha, Hs.
Qed.

Lemma only_three_fields_witness :
  @createInvoice zod3
    [ ("id", Text "inv1"); ("customerId", Text "c1"); ("date", Text "1999-12-31");
      ("amount", Text "50"); ("status", Text "paid"); ("status", Text "overdue") ]
    Sample.world0
  = @createInvoice zod3 (Sample.form "c1" "50" "paid") Sample.world0.
Proof.
  apply (@only_three_fields_are_read zod3
           [ ("id", Text "inv1"); ("customerId", Text "c1"); ("date", Text "1999-12-31");
             ("amount", Text "50"); ("status", Text "paid"); ("status", Text "overdue") ]
           (Sample.form "c1" "50" "paid") "inv1" Sample.world0);
    reflexivity.
Defined.

(** X6.  [createInvoice] and [updateInvoice] never return: either the form
    fails validation and they throw the [ZodError], leaving the world as
    it was, or it passes and they complete with the redirect to
    [/dashboard/invoices]; an error of the store never leaves them.
    [deleteInvoice] returns, or throws the error the store raised on the
    delete, and nothing else. *)
Theorem actions_complete_by_throwing {R : release} formData id w :
  (passes formData = false /\
   createInvoice formData w = (Throw (ZodError (issues_of formData)), w) /\
   updateInvoice id formData w = (Throw (ZodError (issues_of formData)), w)
   \/
   passes formData = true /\
   outcome (createInvoice formData w) = Throw (NEXT_REDIRECT "/dashboard/invoices") /\
   outcome (updateInvoice id formData w) = Throw (NEXT_REDIRECT "/dashboard/invoices")) /\
  (outcome (deleteInvoice id w) = Return tt \/
   exists message,
     store_fault w (removal id) = Some message /\
     outcome (deleteInvoice id w) = Throw (PostgresError message)).
Proof.
  split.
  - destruct (passes formData) eqn:Hp.
    + right. rewrite (createInvoice_passes _ w Hp), (updateInvoice_passes id _ w Hp).
      repeat split.
    + left. rewrite (createInvoice_fails _ w Hp), (updateInvoice_fails id _ w Hp).
      repeat split.
  - rewrite deleteInvoice_run.
    destruct (store_fault w (removal id)) as [message|]; [right; eauto | now left].
Qed.

(** X7.  A request sends at most one statement: [createInvoice] and
    [updateInvoice] send their insert or update once when the form passes
    validation and nothing when it fails; [deleteInvoice] sends its delete
    once.  No action removes a call from the log. *)
Theorem one_statement_per_request {R : release} formData id w :
  (exists made,
     calls (after (createInvoice formData w)) = (calls w ++ made)%list /\
     statements made = if passes formData then [insertion formData (now w)] else []) /\
  (exists made,
     calls (after (updateInvoice id formData w)) = (calls w ++ made)%list /\
     statements made = if passes formData then [revision id formData] else []) /\
  (exists made,
     calls (after (deleteInvoice id w)) = (calls w ++ made)%list /\
     statements made = [removal id]).
Proof.
  split; [|split].
  - destruct (passes formData) eqn:Hp.
    + rewrite (createInvoice_passes _ w Hp). apply one_statement_sent.
    + rewrite (createInvoice_fails _ w Hp). exists []. split; [|reflexivity].
      unfold after; cbn. now rewrite app_nil_r.
  - destruct (passes formData) eqn:Hp.
    + rewrite (updateInvoice_passes id _ w Hp). apply one_statement_sent.
    + rewrite (updateInvoice_fails id _ w Hp). exists []. split; [|reflexivity].
      unfold after; cbn. now rewrite app_nil_r.
  - rewrite deleteInvoice_run. destruct (store_fault w (removal id)) as [message|].
    + exists [Query (removal id)]. split; reflexivity.
    + exists [Query (removal id); RevalidatePath listing]. split; [|reflexivity].
      unfold after; cbn. now rewrite <- !app_assoc.
Qed.

(** X8.  Each action shapes the table in one way, whatever the form and
    the store: [createInvoice] keeps every row in place and adds at most
    one after them; [updateInvoice] keeps the rows' ids, in order, so it
    neither adds nor removes a row; [deleteInvoice] leaves a selection of
    the rows, in order, so it neither adds nor alters one. *)
Theorem each_action_shapes_the_table_one_way {R : release} formData id w :
  (exists added,
     invoices (after (createInvoice formData w)) = (invoices w ++ added)%list /\
     (List.length added <= 1)%nat) /\
  map Postgres.id (invoices (after (updateInvoice id formData w)))
    = map Postgres.id (invoices w) /\
  (exists keep,
     invoices (after (deleteInvoice id w)) = filter keep (invoices w)).
Proof.
  split; [|split].
  - rewrite table_after_any_create.
    destruct (passes formData);
      [destruct (store_fault w (insertion formData (now w)))|].
    + exists []. split; [now rewrite app_nil_r | cbn; lia].
    + eexists. split; [reflexivity | cbn; lia].
    + exists []. split; [now rewrite app_nil_r | cbn; lia].
  - rewrite table_after_update.
    destruct (passes formData);
      [destruct (store_fault w (revision id formData))|]; try reflexivity.
    cbn [Postgres.execute revision]. rewrite map_map. apply map_ext.
    intros r. now destruct (Postgres.value_eqb (Postgres.id r) (Str id)).
  - rewrite table_after_delete. destruct (store_fault w (removal id)).
    + exists (fun _ => true). induction (invoices w) as [|r t IH]; [reflexivity|].
      cbn. now rewrite <- IH.
    + eexists. reflexivity.
Qed.

(** X9.  Deleting twice is deleting once: on a store that takes the
    delete, a second [deleteInvoice] of the same id returns normally and
    leaves the table the first one left. *)
Theorem delete_twice_is_delete_once id w :
  accepts w (removal id) ->
  outcome (deleteInvoice id (after (deleteInvoice id w))) = Return tt /\
  invoices (after (deleteInvoice id (after (deleteInvoice id w))))
    = invoices (after (deleteInvoice id w)).
Proof.
  unfold accepts. intros Hok.
  assert (store_fault (after (deleteInvoice id w)) (removal id) = None) as Hok'.
  { rewrite deleteInvoice_run, Hok. exact Hok. }
  split.
  - rewrite (deleteInvoice_run id (after _)), Hok'. reflexivity.
  - rewrite (table_after_delete id (after _)), Hok', (table_after_delete id w), Hok.
    cbn [Postgres.execute removal]. apply filter_twice.
Qed.

Lemma delete_twice_witness :
  outcome (deleteInvoice "inv1" (after (deleteInvoice "inv1" Sample.world0))) = Return tt /\
  invoices (after (deleteInvoice "inv1" (after (deleteInvoice "inv1" Sample.world0)))) = [].
Proof.
  destruct (delete_twice_is_delete_once "inv1" Sample.world0 eq_refl) as (Hout & Hrows).
  split; [exact Hout|]. rewrite Hrows. reflexivity.
Defined.

(** X10.  Create, then delete the new row: when the form passes validation,
    the store takes both statements and no row has the identifier the
    store gives the new one, [deleteInvoice] of that identifier after
    [createInvoice] leaves the table as it was before the two. *)
Theorem create_then_delete_restores_the_table {R : release} formData w :
  passes formData = true ->
  accepts w (insertion formData (now w)) ->
  accepts w (removal (new_id w (inserted w))) ->
  (forall row, In row (invoices w) -> Postgres.id row <> Str (new_id w (inserted w))) ->
  invoices (after (deleteInvoice (new_id w (inserted w)) (after (createInvoice formData w))))
    = invoices w.
Proof.
  unfold accepts. intros Hp Hins Hdel Hfresh.
  rewrite table_after_delete.
  destruct (store_fault_kept formData "" w) as (-> & _).
  rewrite Hdel, table_after_any_create, Hp, Hins.
  cbn [Postgres.execute insertion removal].
  rewrite filter_app. cbn [filter Postgres.id Postgres.value_eqb].
  rewrite String.eqb_refl. cbn [negb]. rewrite app_nil_r.
  apply (execute_unknown_id "" (Postgres.DELETE (Str (new_id w (inserted w))))
           (new_id w (inserted w)) (invoices w) Hfresh).
  now right.
Qed.

Lemma create_then_delete_witness :
  invoices (after (deleteInvoice "inv2"
                     (after (@createInvoice zod3 (Sample.form "c1" "50" "pending")
                               Sample.world0))))
    = invoices Sample.world0.
Proof.
  assert (@passes zod3 (Sample.form "c1" "50" "pending") = true) as Hp
    by (vm_compute; reflexivity).
  assert (forall row, In row (invoices Sample.world0) ->
                      Postgres.id row <> Str (new_id Sample.world0 (inserted Sample.world0)))
    as Hfresh by (intros row [<- | []]; discriminate).
  exact (@create_then_delete_restores_the_table zod3 (Sample.form "c1" "50" "pending")
           Sample.world0 Hp eq_refl eq_refl Hfresh).
Defined.

(** X11.  The last update wins: when two forms pass validation and the
    store takes both updates, updating an id with the first form and then
    with the second leaves the table that the second update alone leaves. *)
Theorem last_update_wins {R : release} id first second w :
  passes first = true ->
  passes second = true ->
  accepts w (revision id first) ->
  accepts w (revision id second) ->
  invoices (after (updateInvoice id second (after (updateInvoice id first w))))
    = invoices (after (updateInvoice id second w)).
Proof.
  unfold accepts. intros Hp1 Hp2 Hok1 Hok2.
  rewrite (table_after_update id second (after _)), Hp2.
  destruct (store_fault_kept first id w) as (_ & -> & _).
  rewrite Hok2, !table_after_update, Hp1, Hp2, Hok1, Hok2.
  cbn [Postgres.execute revision]. rewrite map_map. apply map_ext.
  intros r. destruct (Postgres.value_eqb (Postgres.id r) (Str id)) eqn:E; cbn [Postgres.id].
  - now rewrite E.
  - now rewrite E.
Qed.

Lemma last_update_wins_witness :
  invoices (after (@updateInvoice zod3 "inv1" (Sample.form "c2" "10.5" "paid")
                     (after (@updateInvoice zod3 "inv1" (Sample.form "c3" "7" "pending")
                               Sample.world0))))
    = [ {| Postgres.id := Str "inv1"; Postgres.customer_id := Str "c2";
           Postgres.amount := Num 1050%float; Postgres.status := Str "paid";
           Postgres.date := Str "2020-01-01" |} ].
Proof.
  assert (@passes zod3 (Sample.form "c3" "7" "pending") = true) as Hp1
    by (vm_compute; reflexivity).
  assert (@passes zod3 (Sample.form "c2" "10.5" "paid") = true) as Hp2
    by (vm_compute; reflexivity).
  rewrite (@last_update_wins zod3 "inv1" (Sample.form "c3" "7" "pending")
             (Sample.form "c2" "10.5" "paid") Sample.world0 Hp1 Hp2 eq_refl eq_refl).
  vm_compute. reflexivity.
Defined.

(** X12.  The date of a new row ignores the time of day: two clocks within
    the same UTC day (the same number of whole days since the epoch)
    stamp the same date, so [createInvoice] sends the same insert. *)
Theorem date_ignores_the_time_of_day formData t t' :
  t / 86400000 = t' / 86400000 ->
  stamped t = stamped t' /\
  insertion formData t = insertion formData t'.
Proof.
  intros Hday.
  assert (stamped t = stamped t') as Hs.
  { rewrite !stamped_date_half. f_equal.
    unfold date_half, DateFromTime, MonthFromTime, InLeapYear, DayWithinYear, YearFromTime.
    change (Day t) with (t / 86400000). change (Day t') with (t' / 86400000).
    now rewrite Hday. }
  split; [exact Hs|]. unfold insertion. now rewrite Hs.
Qed.

Lemma date_ignores_the_time_of_day_witness :
  stamped 1793577600000 = stamped 1793663999999 /\
  stamped 1793577600000 = Str "2026-11-02".
Proof.
  destruct (date_ignores_the_time_of_day [] 1793577600000 1793663999999 eq_refl) as (H & _).
  split; [exact H | vm_compute; reflexivity].
Defined.

(** X13.  What reaches the store is well formed: for every form that
    passes validation, the insert and the update bind a string as
    customer_id, a number that is not NaN as amount, one of ["pending"]
    and ["paid"] as status, and a string as date or id; no parameter is
    undefined or null. *)
Theorem statements_bind_defined_values {R : release} formData id w :
  passes formData = true ->
  exists customerId cents status date,
    insertion formData (now w)
      = Postgres.INSERT (Str customerId) (Num cents) (Str status) (Str date) /\
    revision id formData
      = Postgres.UPDATE (Str customerId) (Num cents) (Str status) (Str id) /\
    is_nan cents = false /\
    (status = "pending" \/ status = "paid").
Proof.
  intros Hp. apply passes_fields in Hp as (c & s & Hc & Ha & Hs & Hv).
  exists c, (cents formData), s, (date_half (now w)).
  unfold insertion, revision. rewrite Hc, Hs, stamped_date_half.
  split; [reflexivity|]. split; [reflexivity|]. split; [|exact Hv].
  unfold cents. apply times_100_not_nan.
  unfold check in Ha. cbv zeta in Ha.
  destruct (is_nan (ToNumber (get formData "amount"))); [discriminate Ha | reflexivity].
Qed.

Lemma statements_bind_defined_values_witness :
  exists customerId cents status date,
    insertion (Sample.form "c1" "0.07" "paid") (now Sample.world0)
      = Postgres.INSERT (Str customerId) (Num cents) (Str status) (Str date) /\
    is_nan cents = false.
Proof.
  assert (@passes zod3 (Sample.form "c1" "0.07" "paid") = true) as Hp
    by (vm_compute; reflexivity).
  destruct (@statements_bind_defined_values zod3 (Sample.form "c1" "0.07" "paid") "inv1"
              Sample.world0 Hp) as (c & a & s & d & Hi & _ & Hn & _).
  exists c, a, s, d. split; [exact Hi | exact Hn].
Defined.

(** X14.  Update after delete changes nothing: once [deleteInvoice] has
    removed the rows under an id, on a store that took the delete,
    [updateInvoice] of the same id leaves the table as the delete left
    it, whatever the form and whether or not the store takes the update. *)
Theorem update_after_delete_changes_nothing {R : release} id formData w :
  accepts w (removal id) ->
  invoices (after (updateInvoice id formData (after (deleteInvoice id w))))
    = invoices (after (deleteInvoice id w)).
Proof.
  unfold accepts. intros Hok.
  rewrite (table_after_update id formData (after _)).
  destruct (passes formData); [|reflexivity].
  destruct (store_fault (after (deleteInvoice id w)) (revision id formData));
    [reflexivity|].
  apply (execute_unknown_id _ _ id).
  - rewrite table_after_delete, Hok. cbn [Postgres.execute removal].
    intros row [_ Hrow]%filter_In. apply negb_true_iff in Hrow.
    intros E. apply value_eqb_Str in E. congruence.
  - left. unfold revision. eauto.
Qed.

Lemma update_after_delete_witness :
  invoices (after (@updateInvoice zod3 "inv1" (Sample.form "c2" "10.5" "paid")
                     (after (deleteInvoice "inv1" Sample.world0))))
    = [].
Proof.
  rewrite (@update_after_delete_changes_nothing zod3 "inv1" (Sample.form "c2" "10.5" "paid")
             Sample.world0 eq_refl).
  reflexivity.
Defined.

(** X15.  Whole and quarter dollars come out as whole cents: for every
    amount from 0 to 999 dollars written in decimal digits, alone or
    followed by a fraction of .00, .25, .50 or .75, the product the
    actions bind to the amount column is exactly the integer number of
    cents. *)
Theorem whole_and_quarter_dollars_are_exact formData n q :
  0 <= n <= 999 ->
  0 <= q <= 3 ->
  (get formData "amount" = Str (dollars n) ->
   Spec.whole (ToNumber (get formData "amount") * 100)%float = Some (100 * n)) /\
  (get formData "amount" = Str (dollars_and_quarters n q) ->
   Spec.whole (ToNumber (get formData "amount") * 100)%float = Some (100 * n + 25 * q)).
Proof.
  intros Hn Hq.
  assert (forall s c, exact_cents s c = true ->
                      Spec.whole (StringToNumber s * 100)%float = Some c) as Hexact.
  { intros s c. unfold exact_cents.
    destruct (Spec.whole (StringToNumber s * 100)%float) as [c'|]; [|discriminate].
    now intros ->%Z.eqb_eq. }
  assert ((4 * n + q) / 4 = n) as Hd by (Z.div_mod_to_equations; lia).
  assert ((4 * n + q) mod 4 = q) as Hm by (Z.div_mod_to_equations; lia).
  assert (0 <= n < 0 + 1000) as Hbn by lia.
  assert (0 <= 4 * n + q < 0 + 4000) as Hbk by lia.
  assert (100 * n + 25 * q = 25 * (4 * n + q)) as Hc by lia.
  assert (Z.of_nat (Z.to_nat 1000) = 1000) as Hcount by (vm_compute; reflexivity).
  assert (Z.of_nat (Z.to_nat 4000) = 4000) as Hcount' by (vm_compute; reflexivity).
  split; intros ->; cbn [ToNumber]; apply Hexact.
  - assert (all_from (fun n => exact_cents (dollars n) (100 * n)) 0 (Z.to_nat 1000) = true)
      as E by (vm_compute; reflexivity).
    pose proof (all_from_spec _ _ _ E n) as H. cbv beta in H.
    rewrite Hcount in H. exact (H Hbn).
  - assert (all_from (fun k => exact_cents (dollars_and_quarters (k / 4) (k mod 4)) (25 * k))
              0 (Z.to_nat 4000) = true)
      as E by (vm_compute; reflexivity).
    pose proof (all_from_spec _ _ _ E (4 * n + q)) as H. cbv beta in H.
    rewrite Hcount', Hd, Hm in H. rewrite Hc. exact (H Hbk).
Qed.

Lemma whole_and_quarter_dollars_witness :
  Spec.whole (ToNumber (get (Sample.form "c1" "12.50" "paid") "amount") * 100)%float
    = Some 1250.
Proof.
  destruct (whole_and_quarter_dollars_are_exact (Sample.form "c1" "12.50" "paid") 12 2)
    as (_ & H); [lia | lia |].
  exact (H eq_refl).
Defined.
